(** * Sentry JavaScript SDK: the HTTPS transport, the hub layer stack and the
    Next.js build integration, embedded in Rocq.

    Every definition follows one source function; the source place is given
    in its comment.  Synchronous JavaScript calls are of type [Completion]
    (a value or a thrown exception); a settled promise is the [Completion] of
    the awaited computation. *)

From stdpp Require Import gmap strings list fin_maps pretty.
From Stdlib Require Import ZArith Ascii.

Open Scope string_scope.

(** ** Completions: the outcome of a JavaScript call *)

Inductive Completion (E A : Type) : Type :=
| Return (a : A)
| Throw (e : E).
Arguments Return {E A} a.
Arguments Throw {E A} e.

Definition completion_bind {E A B} (f : A -> Completion E B)
    (c : Completion E A) : Completion E B :=
  match c with
  | Return a => f a
  | Throw e => Throw e
  end.

#[export] Instance completion_mret {E} : MRet (Completion E) := fun A a => Return a.
#[export] Instance completion_mbind {E} : MBind (Completion E) :=
  fun A B f c => completion_bind f c.

Definition returns {E A} (c : Completion E A) : Prop :=
  match c with Return _ => True | Throw _ => False end.

(** The exceptions the modelled code raises by itself. *)
Inductive JSError : Type :=
| SentryError (message : string)
| TypeError (message : string)
| ThrownValue (description : string).

#[export] Instance JSError_eq_dec : EqDecision JSError.
Proof. solve_decision. Defined.

(** JavaScript truthiness of a [string | undefined]. *)
Definition truthy (v : option string) : bool :=
  match v with
  | Some s => negb (String.eqb s "")
  | None => false
  end.

(** ** The Node https transport (src/unnamed/part_000) *)

Module Transport.

(** The two Node modules a transport can send with. *)
Inductive HTTPModule : Type := http | https.

(** The options object given to [new https.Agent(...)]. *)
Record AgentOptions : Type := mkAgentOptions {
  keepAlive : bool;
  maxSockets : Z;
  timeout : Z
}.

(** [this.client]: a plain agent, or the agent made by the
    https-proxy-agent package. *)
Inductive Agent (ProxyAgent : Type) : Type :=
| HttpsAgent (o : AgentOptions)
| HttpsProxyAgent (agent : ProxyAgent).
Arguments HttpsAgent {ProxyAgent} o.
Arguments HttpsProxyAgent {ProxyAgent} agent.

Section HTTPSTransport.

(** Types of @sentry/types, @sentry/core and https-proxy-agent, kept
    abstract. *)
Variables TransportOptions API Event Session SentryRequest PromiseResponse ProxyAgent : Type.

(** The fields of BaseTransport that HTTPSTransport reads and writes;
    [module] and [client] are optional in the base class. *)
Record HTTPSTransport : Type := mkTransport {
  options : TransportOptions;
  _api : API;
  module : option HTTPModule;
  client : option (Agent ProxyAgent)
}.

(** The third argument of [_sendWithModule]: the original payload. *)
Inductive Payload : Type :=
| PEvent (event : Event)
| PSession (session : Session).

(** Members of ./base, of @sentry/core and of https-proxy-agent, whose
    code is elsewhere: the superclass constructor, the proxy resolution, the
    shared send routine, the two payload builders, and
    [new (require('https-proxy-agent'))(proxy)]. *)
Variable BaseTransport_constructor : TransportOptions -> Completion JSError HTTPSTransport.
Variable _getProxy : HTTPSTransport -> string -> option string.
Variable _sendWithModule :
  HTTPSTransport -> HTTPModule -> SentryRequest -> Payload -> Completion JSError PromiseResponse.
Variable eventToSentryRequest : Event -> API -> Completion JSError SentryRequest.
Variable sessionToSentryRequest : Session -> API -> Completion JSError SentryRequest.
Variable newHttpsProxyAgent : string -> Completion JSError ProxyAgent.

(** part_000, line 17: the options of the agent made when no proxy is in use. *)
Definition defaultAgentOptions : AgentOptions :=
  {| keepAlive := false; maxSockets := 30; timeout := 2000 |}.

(** part_000, lines 11-12: the instance when the body of the constructor
    starts; [super(options)] has run and the parameter property
    [public options] is assigned. *)
Definition afterSuper (opts : TransportOptions) (base : HTTPSTransport) : HTTPSTransport :=
  mkTransport opts (_api base) (module base) (client base).

(** part_000, lines 11-18. *)
Definition constructor (opts : TransportOptions) : Completion JSError HTTPSTransport :=
  base ← BaseTransport_constructor opts;
  let this := afterSuper opts base in
  let proxy := _getProxy this "https" in
  let this := mkTransport (options this) (_api this) (Some https) (client this) in
  agent ← (if truthy proxy
           then a ← newHttpsProxyAgent (default "" proxy); mret (HttpsProxyAgent a)
           else mret (HttpsAgent defaultAgentOptions));
  mret (mkTransport (options this) (_api this) (module this) (Some agent)).

(** part_000, lines 23-28. *)
Definition sendEvent (this : HTTPSTransport) (event : Event)
    : Completion JSError PromiseResponse :=
  match module this with
  | None => Throw (SentryError "No module available in HTTPSTransport")
  | Some m =>
      req ← eventToSentryRequest event (_api this);
      _sendWithModule this m req (PEvent event)
  end.

(** part_000, lines 33-38. *)
Definition sendSession (this : HTTPSTransport) (session : Session)
    : Completion JSError PromiseResponse :=
  match module this with
  | None => Throw (SentryError "No module available in HTTPTransport")
  | Some m =>
      req ← sessionToSentryRequest session (_api this);
      _sendWithModule this m req (PSession session)
  end.

End HTTPSTransport.

Arguments mkTransport {_ _ _} _ _ _ _.
Arguments options {_ _ _} _.
Arguments _api {_ _ _} _.
Arguments module {_ _ _} _.
Arguments client {_ _ _} _.
Arguments PEvent {_ _} _.
Arguments PSession {_ _} _.
Arguments afterSuper {_ _ _} _ _.
Arguments constructor {_ _ _} _ _ _ _.
Arguments sendEvent {_ _ _ _ _ _ _} _ _ _ _.
Arguments sendSession {_ _ _ _ _ _ _} _ _ _ _.

End Transport.

(** ** The hub layer stack (src/packages/hub/src/interfaces.ts) *)

Module Hub.

#[local] Open Scope list_scope.

Section LayerStack.

(** Types of @sentry/types that the stack only stores. *)
Variables Client User Breadcrumb Span Extra EventProcessor : Type.

(** Modelled from the spec: the Scope class of ./scope, which interfaces.ts
    imports; the fields are those of the data model. *)
Record Scope : Type := mkScope {
  tags : gmap string string;
  extraData : gmap string Extra;
  user : option User;
  breadcrumbs : list Breadcrumb;
  activeSpan : option Span;
  eventProcessors : list EventProcessor
}.

(** interfaces.ts, lines 10-13: both fields are optional. *)
Record Layer : Type := mkLayer {
  client : option Client;
  scope : option Scope
}.

(** Modelled from the spec: the empty Scope of the Scope class, which a
    fresh stack is seeded with. *)
Definition emptyScope : Scope :=
  {| tags := ∅; extraData := ∅; user := None; breadcrumbs := [];
     activeSpan := None; eventProcessors := [] |}.

(** Modelled from the spec: [clone] of the Scope class copies every field. *)
Definition clone (s : Scope) : Scope :=
  {| tags := tags s; extraData := extraData s; user := user s;
     breadcrumbs := breadcrumbs s; activeSpan := activeSpan s;
     eventProcessors := eventProcessors s |}.

(** Modelled from the spec: the stack of the Hub class of ./hub, which
    interfaces.ts imports, is an ordered sequence whose last element is the
    current layer; a fresh stack holds one layer with an empty Scope. *)
Definition freshStack (c : option Client) : list Layer :=
  [ {| client := c; scope := Some emptyScope |} ].

(** Modelled from the spec: the current layer of the Hub class is the last
    element of the stack. *)
Definition getStackTop (stack : list Layer) : option Layer := last stack.

(** Modelled from the spec: [getClient] of the Hub class reads the top of
    the stack and is undefined on a stack without layers. *)
Definition getClient (stack : list Layer) : option Client :=
  getStackTop stack ≫= client.

(** Modelled from the spec: [getScope] of the Hub class, fail-safe like
    [getClient]. *)
Definition getScope (stack : list Layer) : option Scope :=
  getStackTop stack ≫= scope.

(** Modelled from the spec: [pushScope] of the Hub class clones the current
    top Scope, or creates an empty one, into a new layer sharing the current
    client. *)
Definition pushScope (stack : list Layer) : list Layer * Scope :=
  let s := from_option clone emptyScope (getScope stack) in
  (stack ++ [ {| client := getClient stack; scope := Some s |} ], s).

(** Modelled from the spec: [popScope] of the Hub class removes the top
    layer if the depth exceeds one and tells whether it did. *)
Definition popScope (stack : list Layer) : list Layer * bool :=
  if decide (1 < length stack) then (removelast stack, true) else (stack, false).

(** Modelled from the spec: a write to the top layer of the Hub class
    rewrites the last element of the stack in place. *)
Definition updateTop (f : Layer -> Layer) (stack : list Layer) : list Layer :=
  match stack with
  | [] => []
  | _ => removelast stack ++ option_list (f <$> last stack)
  end.

(** Modelled from the spec: [bindClient] of the Hub class replaces the
    client of the top layer only. *)
Definition bindClient (c : Client) (stack : list Layer) : list Layer :=
  updateTop (fun l => {| client := Some c; scope := scope l |}) stack.

(** Modelled from the spec: the setters of the Scope class mutate the
    current scope in place. *)
Definition updateScope (f : Scope -> Scope) (stack : list Layer) : list Layer :=
  updateTop (fun l => {| client := client l; scope := f <$> scope l |}) stack.

(** Modelled from the spec: [setTag] of the Scope class, last write wins. *)
Definition setTag (k v : string) (s : Scope) : Scope :=
  {| tags := <[k := v]> (tags s); extraData := extraData s; user := user s;
     breadcrumbs := breadcrumbs s; activeSpan := activeSpan s;
     eventProcessors := eventProcessors s |}.

(** Modelled from the spec: [setExtra] of the Scope class. *)
Definition setExtra (k : string) (v : Extra) (s : Scope) : Scope :=
  {| tags := tags s; extraData := <[k := v]> (extraData s); user := user s;
     breadcrumbs := breadcrumbs s; activeSpan := activeSpan s;
     eventProcessors := eventProcessors s |}.

(** Modelled from the spec: [setUser] of the Scope class. *)
Definition setUser (u : option User) (s : Scope) : Scope :=
  {| tags := tags s; extraData := extraData s; user := u;
     breadcrumbs := breadcrumbs s; activeSpan := activeSpan s;
     eventProcessors := eventProcessors s |}.

(** Modelled from the spec: [addBreadcrumb] of the Scope class appends and
    evicts the oldest entries beyond the configured maximum. *)
Definition addBreadcrumb (maxBreadcrumbs : nat) (b : Breadcrumb) (s : Scope) : Scope :=
  let bs := breadcrumbs s ++ [b] in
  {| tags := tags s; extraData := extraData s; user := user s;
     breadcrumbs := drop (length bs - maxBreadcrumbs) bs;
     activeSpan := activeSpan s; eventProcessors := eventProcessors s |}.

(** Modelled from the spec: the operations of the Hub class and of the
    current Scope that change the stack, as a script. *)
#[warnings="-register-all"] Inductive HubOp : Type :=
| OpPushScope
| OpPopScope
| OpBindClient (c : Client)
| OpSetTag (k v : string)
| OpSetExtra (k : string) (v : Extra)
| OpSetUser (u : option User)
| OpAddBreadcrumb (maxBreadcrumbs : nat) (b : Breadcrumb)
| OpWithScope (body : list HubOp).

(** Modelled from the spec: one operation of the Hub class run on the
    stack; [withScope] pushes, runs the callback and pops on every exit
    path. *)
Fixpoint execOp (op : HubOp) (stack : list Layer) : list Layer :=
  match op with
  | OpPushScope => fst (pushScope stack)
  | OpPopScope => fst (popScope stack)
  | OpBindClient c => bindClient c stack
  | OpSetTag k v => updateScope (setTag k v) stack
  | OpSetExtra k v => updateScope (setExtra k v) stack
  | OpSetUser u => updateScope (setUser u) stack
  | OpAddBreadcrumb n b => updateScope (addBreadcrumb n b) stack
  | OpWithScope body =>
      let pushed := fst (pushScope stack) in
      let after := fold_left (fun st o => execOp o st) body pushed in
      fst (popScope after)
  end.

(** Modelled from the spec: a script of Hub operations run in order. *)
Definition execOps (ops : list HubOp) (stack : list Layer) : list Layer :=
  fold_left (fun st o => execOp o st) ops stack.

(** Modelled from the spec: the invariant of the Layer data model, no
    layer of the stack lacks its scope. *)
Definition scopesPresent (stack : list Layer) : Prop :=
  Forall (fun l => is_Some (scope l)) stack.

End LayerStack.

Arguments mkScope {_ _ _ _ _} _ _ _ _ _ _.
Arguments mkLayer {_ _ _ _ _ _} _ _.
Arguments client {_ _ _ _ _ _} _.
Arguments scope {_ _ _ _ _ _} _.
Arguments emptyScope {_ _ _ _ _}.
Arguments freshStack {_ _ _ _ _ _} _.
Arguments execOp {_ _ _ _ _ _} _ _.
Arguments execOps {_ _ _ _ _ _} _ _.
Arguments scopesPresent {_ _ _ _ _ _} _.
Arguments OpPushScope {_ _ _ _}.
Arguments OpPopScope {_ _ _ _}.
Arguments OpBindClient {_ _ _ _} _.
Arguments OpSetTag {_ _ _ _} _ _.
Arguments OpSetExtra {_ _ _ _} _ _.
Arguments OpSetUser {_ _ _ _} _.
Arguments OpAddBreadcrumb {_ _ _ _} _ _.
Arguments OpWithScope {_ _ _ _} _.

End Hub.

(** ** JavaScript string and array primitives used by the Next.js code *)

Module JS.

(** [s.includes(sub)]. *)
Definition includes (s sub : string) : bool :=
  match String.index 0 sub s with
  | Some _ => true
  | None => false
  end.

(** The replacement patterns of [String.prototype.replace] for a string
    pattern, which has no capture groups: [$$], [$&], [$`] and [$']. *)
Fixpoint expandReplacement (repl matched before after : string) : string :=
  match repl with
  | EmptyString => EmptyString
  | String a tl =>
      if Ascii.eqb a "$"%char
      then
        match tl with
        | String c rest =>
            if Ascii.eqb c "$"%char then String "$"%char (expandReplacement rest matched before after)
            else if Ascii.eqb c "&"%char then matched +:+ expandReplacement rest matched before after
            else if Ascii.eqb c "`"%char then before +:+ expandReplacement rest matched before after
            else if Ascii.eqb c "'"%char then after +:+ expandReplacement rest matched before after
            else String a (expandReplacement tl matched before after)
        | EmptyString => String a EmptyString
        end
      else String a (expandReplacement tl matched before after)
  end.

(** [s.replace(pattern, replacement)] with a string pattern: the first
    occurrence only. *)
Definition replace (s pattern replacement : string) : string :=
  match String.index 0 pattern s with
  | None => s
  | Some i =>
      let before := String.substring 0 i s in
      let after :=
        String.substring (i + String.length pattern)
          (String.length s - (i + String.length pattern)) s in
      before +:+ expandReplacement replacement pattern before after +:+ after
  end.

(** The property names an array inherits from [Array.prototype] and
    [Object.prototype]. *)
Definition inheritedArrayProperties : list string :=
  [ "constructor"; "concat"; "copyWithin"; "fill"; "find"; "findIndex";
    "lastIndexOf"; "pop"; "push"; "reverse"; "shift"; "unshift"; "slice";
    "sort"; "splice"; "includes"; "indexOf"; "join"; "keys"; "entries";
    "values"; "forEach"; "filter"; "flat"; "flatMap"; "map"; "every"; "some";
    "reduce"; "reduceRight"; "toLocaleString"; "toString";
    "hasOwnProperty"; "isPrototypeOf"; "propertyIsEnumerable"; "valueOf";
    "__proto__"; "__defineGetter__"; "__defineSetter__"; "__lookupGetter__";
    "__lookupSetter__"; "at"; "findLast"; "findLastIndex"; "toReversed";
    "toSorted"; "toSpliced"; "with" ].

(** [key in array] for an array of the given length: the key is an index
    below the length, or [length], or an inherited property. *)
Definition inArray (key : string) (len : nat) : bool :=
  existsb (fun i => String.eqb (pretty i) key) (seq 0 len)
  || String.eqb key "length"
  || bool_decide (key ∈ inheritedArrayProperties).

(** The strings made of decimal digits only; the index keys of an array
    are among them. *)
Definition isDigit (c : ascii) : bool :=
  Nat.leb 48 (nat_of_ascii c) && Nat.leb (nat_of_ascii c) 57.

Fixpoint isDigits (s : string) : bool :=
  match s with
  | EmptyString => true
  | String c rest => isDigit c && isDigits rest
  end.

(** [array.toString()] of an array of booleans. *)
Definition boolToString (b : bool) : string := if b then "true" else "false".

Definition boolsToString (l : list bool) : string :=
  String.concat "," (map boolToString l).

Definition newline : string := String (Ascii.ascii_of_nat 10) EmptyString.
Definition tab : string := String (Ascii.ascii_of_nat 9) EmptyString.

End JS.

(** ** The API route loader
    (src/packages/nextjs/src/utils/api-wrapping-loader.ts, lines 1-92) *)

Module Loader.

#[local] Open Scope list_scope.

(** api-wrapping-loader.ts, lines 15-17. *)
Record LoaderOptions : Type := mkLoaderOptions { sdkPath : string }.
Record Loader : Type := mkLoader { options : LoaderOptions; path : string }.
Record LoaderContext : Type := mkLoaderContext { resource : string; loaders : list Loader }.

(** What [routeModule.exports.default] can hold; a function shows its
    source text through [toString()]. *)
Inductive JSValue : Type :=
| VUndefined
| VNull
| VBoolean (b : bool)
| VNumber (z : Z)
| VString (s : string)
| VObject (description : string)
| VFunction (source : string).

Definition typeof (v : JSValue) : string :=
  match v with
  | VUndefined => "undefined"
  | VNull => "object"
  | VBoolean _ => "boolean"
  | VNumber _ => "number"
  | VString _ => "string"
  | VObject _ => "object"
  | VFunction _ => "function"
  end.

(** api-wrapping-loader.ts, lines 70-78. *)
Fixpoint getOptions (loaders : list Loader) : option LoaderOptions :=
  match loaders with
  | [] => None
  | loader :: rest =>
      if JS.includes (path loader) "nextjs/dist/utils/api-wrapping-loader"
      then Some (options loader)
      else getOptions rest
  end.

Section Load.

(** Node's [new Module(filename, parent)._compile(code, filename)]
    followed by the read of [exports.default]: the default export of the
    compiled code, or the exception the compilation raised. *)
Variable compile : string -> string -> Completion JSError JSValue.

(** [newHandler.toString()]: the source text of the arrow function that
    [makeWrappedRequestHandler] returns. *)
Variable wrappedHandlerSource : string.

(** api-wrapping-loader.ts, lines 29-67.  The first component is what
    the call writes with [console.warn]. *)
Definition load (this : LoaderContext) (rawInput : string)
    : list string * Completion JSError string :=
  match getOptions (loaders this) with
  | None => ([], Throw (TypeError "Cannot read property 'sdkPath' of undefined"))
  | Some options =>
      let origCode := JS.replace rawInput "@sentry/nextjs" (sdkPath options) in
      let filename := "lookIMadeAModule" in
      match compile origCode filename with
      | Throw e => ([], Throw e)
      | Return origHandler =>
          match origHandler with
          | VFunction source =>
              let newCode := JS.replace origCode source wrappedHandlerSource in
              let newCode :=
                newCode +:+ JS.newline +:+ JS.newline +:+ "const origHandler = " +:+ source in
              ([], Return newCode)
          | _ =>
              ([ "[Sentry] Could not wrap " +:+ resource this +:+
                 " for error handling. Default export is not a function." ],
               Return rawInput)
          end
      end
  end.

End Load.

(** *** The wrapped route handler *)

Section Wrapping.

(** The state of everything outside the wrapper (the SDK, the response,
    the application), the values JavaScript code throws, and the request
    and response objects. *)
Variables World Err NextApiRequest NextApiResponse : Type.

(** An awaited computation: it ends with a value or a thrown value and
    leaves a new state. *)
Definition Task (A : Type) : Type := World -> Completion Err A * World.

Definition task_ret {A} (a : A) : Task A := fun w => (Return a, w).

Definition task_throw {A} (e : Err) : Task A := fun w => (Throw e, w).

Definition task_bind {A B} (m : Task A) (k : A -> Task B) : Task B :=
  fun w =>
    match m w with
    | (Return a, w') => k a w'
    | (Throw e, w') => (Throw e, w')
    end.

(** [try { m } catch (err) { handler }]. *)
Definition try_catch {A} (m : Task A) (handler : Err -> Task A) : Task A :=
  fun w =>
    match m w with
    | (Return a, w') => (Return a, w')
    | (Throw e, w') => handler e w'
    end.

(** [Sentry.captureException] and [Sentry.flush] of ../index.server. *)
Variable captureException : Err -> Task string.
Variable flush : Z -> Task bool.

(** api-wrapping-loader.ts, lines 81-92. *)
Definition makeWrappedRequestHandler
    (origHandler : NextApiRequest -> NextApiResponse -> Task unit)
    : NextApiRequest -> NextApiResponse -> Task unit :=
  fun req res =>
    try_catch (origHandler req res)
      (fun err =>
         task_bind (captureException err) (fun _ =>
         task_bind (flush 2000) (fun _ =>
         task_throw err))).

End Wrapping.

Arguments task_ret {_ _ _} _ _.
Arguments task_throw {_ _ _} _ _.
Arguments task_bind {_ _ _ _} _ _ _.
Arguments try_catch {_ _ _} _ _ _.
Arguments makeWrappedRequestHandler {_ _ _ _} _ _ _ _ _.

End Loader.

(** ** The webpack configuration of the Next.js plugin
    (src/packages/nextjs/src/utils/api-wrapping-loader.ts, lines 93-259) *)

Module Config.

#[local] Open Scope list_scope.

(** api-wrapping-loader.ts, line 120: the value under [import], a string
    or an array of strings.  At run time it can be anything: [PIterable] is
    another iterable value, such as a Set, with the items that spreading it
    yields; [POther] is a value that is not iterable. *)
Inductive PropValue : Type :=
| PString (s : string)
| PArray (l : list string)
| PIterable (description : string) (items : list string)
| POther (description : string).

(** api-wrapping-loader.ts, line 119: a value of the entry object; an
    entry point object keeps its other configuration keys. *)
Inductive EntryValue : Type :=
| EString (s : string)
| EArray (l : list string)
| EObject (o : gmap string PropValue).

(** api-wrapping-loader.ts, line 114, and the promise that line 237 stores
    in the same field. *)
Inductive EntryProperty : Type :=
| EPObject (o : gmap string EntryValue)
| EPFunction (f : unit -> Completion JSError (gmap string EntryValue))
| EPPromise (settled : Completion JSError (gmap string EntryValue)).

(** A line written with [console.log]. *)
Inductive ConsoleLine : Type :=
| LogEntryProperty (ep : EntryProperty)
| LogText (parts : list string).

(** api-wrapping-loader.ts, lines 146 and 148. *)
Definition injectionPoint (isServer : bool) : string :=
  if isServer then "pages/_document" else "main".

Definition injectee (isServer : bool) : string :=
  if isServer then "./sentry.server.config.js" else "./sentry.client.config.js".

(** api-wrapping-loader.ts, lines 123-181.  The first component is the
    console output, the second the settlement of the returned promise.  A
    promise given as entry property is read like an object without entries;
    reading [import] of [undefined] and spreading a value that is not
    iterable raise a TypeError, and any iterable is spread like an array. *)
Definition injectSentry (origEntryProperty : EntryProperty) (isServer : bool)
    : list ConsoleLine * Completion JSError (gmap string EntryValue) :=
  let log1 := LogEntryProperty origEntryProperty in
  let awaited :=
    match origEntryProperty with
    | EPFunction f => f ()
    | EPObject o => Return o
    | EPPromise _ => Return ∅
    end in
  match awaited with
  | Throw e => ([log1], Throw e)
  | Return newEntryProperty =>
      let log2 := LogText ["injectionPoint:"; injectionPoint isServer] in
      let injectedInto : Completion JSError EntryValue :=
        match newEntryProperty !! injectionPoint isServer with
        | Some (EString s) => Return (EArray [injectee isServer; s])
        | Some (EArray l) => Return (EArray (injectee isServer :: l))
        | Some (EObject o) =>
            match o !! "import" with
            | Some (PString s) =>
                Return (EObject (<["import" := PArray [injectee isServer; s]]> o))
            | Some (PArray l) | Some (PIterable _ l) =>
                Return (EObject (<["import" := PArray (injectee isServer :: l)]> o))
            | Some (POther _) | None =>
                Throw (TypeError "injectedInto.import is not iterable")
            end
        | None => Throw (TypeError "Cannot read property 'import' of undefined")
        end in
      match injectedInto with
      | Throw e => ([log1; log2], Throw e)
      | Return v =>
          let newEntryProperty := <[injectionPoint isServer := v]> newEntryProperty in
          let newEntryProperty :=
            if decide (is_Some (newEntryProperty !! "main.js"))
            then delete "main.js" newEntryProperty
            else newEntryProperty in
          ([log1; log2], Return newEntryProperty)
      end
  end.

(** The entry points listed by a value of the entry object, in order. *)
Definition entryPoints (v : EntryValue) : option (list string) :=
  match v with
  | EString s => Some [s]
  | EArray l => Some l
  | EObject o =>
      match o !! "import" with
      | Some (PString s) => Some [s]
      | Some (PArray l) => Some l
      | _ => None
      end
  end.

(** The keys of an entry point object other than [import]. *)
Definition otherSettings (v : EntryValue) : gmap string PropValue :=
  match v with
  | EObject o => delete "import" o
  | _ => ∅
  end.

(** A value of the options object of SentryWebpackPlugin. *)
Inductive OptionValue : Type :=
| OUndefined
| OString (s : string)
| OStrings (l : list string)
| OBool (b : bool).

Definition ofOptional (v : option string) : OptionValue :=
  match v with
  | Some s => OString s
  | None => OUndefined
  end.

(** api-wrapping-loader.ts, lines 110-111. *)
Inductive Plugin : Type :=
| SentryWebpackPlugin (options : gmap string OptionValue)
| OtherPlugin (name : string).

Record WebpackConfig : Type := mkWebpackConfig {
  devtool : string;
  plugins : list Plugin;
  entry : EntryProperty
}.

Record WebpackOptions : Type := mkWebpackOptions { dev : bool; isServer : bool }.

(** api-wrapping-loader.ts, line 106; the first component of the result is
    the console output of the call. *)
Definition WebpackExport : Type :=
  WebpackConfig -> WebpackOptions -> list ConsoleLine * Completion JSError WebpackConfig.

(** api-wrapping-loader.ts, lines 183-188. *)
Record NextConfigExports : Type := mkNextConfigExports {
  experimental : option bool;
  exportedPlugins : option (list string);
  productionBrowserSourceMaps : option bool;
  webpack : option WebpackExport
}.

Definition emptyExports : NextConfigExports :=
  {| experimental := None; exportedPlugins := None;
     productionBrowserSourceMaps := None; webpack := None |}.

Section WithSentryConfig.

(** [getSentryRelease()] of @sentry/node and [process.env]. *)
Variable getSentryRelease : option string.
Variable env : gmap string string.

(** api-wrapping-loader.ts, lines 194-205, in the order of the literal. *)
Definition defaultWebpackPluginOptions : list (string * OptionValue) :=
  [ ("release", ofOptional getSentryRelease);
    ("url", ofOptional (env !! "SENTRY_URL"));
    ("org", ofOptional (env !! "SENTRY_ORG"));
    ("project", ofOptional (env !! "SENTRY_PROJECT"));
    ("authToken", ofOptional (env !! "SENTRY_AUTH_TOKEN"));
    ("configFile", OString "sentry.properties");
    ("stripPrefix", OStrings ["webpack://_N_E/"]);
    ("urlPrefix", OString "~/_next");
    ("include", OString ".next/");
    ("ignore", OStrings ["node_modules"; "webpack.config.js"]) ].

(** api-wrapping-loader.ts, lines 208-210: [Object.keys] of the provided
    options is an array with one element per key. *)
Definition webpackPluginOptionOverrides
    (providedWebpackPluginOptions : gmap string OptionValue) : list bool :=
  map (fun key => JS.inArray key (size providedWebpackPluginOptions))
    (map fst defaultWebpackPluginOptions ++ ["dryrun"]).

(** api-wrapping-loader.ts, lines 212-216. *)
Definition overrideWarning (overrides : list bool) : string :=
  "[next-plugin-sentry] You are overriding the following automatically-set SentryWebpackPlugin config options:"
  +:+ JS.newline
  +:+ JS.tab +:+ JS.boolsToString overrides +:+ "," +:+ JS.newline
  +:+ "which has the possibility of breaking source map upload and application. This is only a good idea if you know what you're doing.".

(** api-wrapping-loader.ts, lines 220-252. *)
Definition newWebpackExport (providedExports : NextConfigExports)
    (providedWebpackPluginOptions : gmap string OptionValue) : WebpackExport :=
  fun config options =>
    let '(console1, provided) :=
      match webpack providedExports with
      | Some f => f config options
      | None => ([], Return config)
      end in
    match provided with
    | Throw e => (console1, Throw e)
    | Return newConfig =>
        let devtool' := if dev options then devtool newConfig else "source-map" in
        let '(console2, settled) := injectSentry (entry newConfig) (isServer options) in
        let plugin :=
          SentryWebpackPlugin
            (providedWebpackPluginOptions
             ∪ list_to_map defaultWebpackPluginOptions
             ∪ {["dryRun" := OBool (dev options)]}) in
        (console1 ++ console2,
         Return {| devtool := devtool';
                   plugins := plugins newConfig ++ [plugin];
                   entry := EPPromise settled |})
    end.

(** api-wrapping-loader.ts, lines 190-259.  An argument left out takes
    its default, the empty object; the first component of the result is
    what the call writes with [logger.warn]. *)
Definition withSentryConfig (providedExports : option NextConfigExports)
    (providedWebpackPluginOptions : option (gmap string OptionValue))
    : list string * NextConfigExports :=
  let providedExports := default emptyExports providedExports in
  let providedWebpackPluginOptions := default ∅ providedWebpackPluginOptions in
  let overrides := webpackPluginOptionOverrides providedWebpackPluginOptions in
  let warnings :=
    if decide (0 < length overrides) then [overrideWarning overrides] else [] in
  (warnings,
   {| experimental := experimental providedExports;
      exportedPlugins := exportedPlugins providedExports;
      productionBrowserSourceMaps := Some true;
      webpack := Some (newWebpackExport providedExports providedWebpackPluginOptions) |}).

End WithSentryConfig.

End Config.

(** ** Sample environments, used to run the definitions on concrete inputs *)

Module Sample.

(** A transport whose options are the configured https proxy, whose API
    is the DSN, whose proxy agents are named by their proxy, and whose
    collaborators answer with fixed strings. *)
Definition SampleTransport : Type := Transport.HTTPSTransport (option string) string string.

Definition baseOf (opts : option string) : SampleTransport :=
  Transport.mkTransport opts "https://key@sentry.example/1" None None.

Definition baseConstructor (opts : option string) : Completion JSError SampleTransport :=
  Return (baseOf opts).

Definition getProxy (this : SampleTransport) (scheme : string) : option string :=
  Transport.options this.

Definition newProxyAgent (proxy : string) : Completion JSError string :=
  Return ("agent for " +:+ proxy).

Definition toRequest (payload : string) (api : string) : Completion JSError string :=
  Return (api +:+ " <- " +:+ payload).

Definition sendWithModule (this : SampleTransport) (m : Transport.HTTPModule)
    (req : string) (payload : Transport.Payload string string) : Completion JSError string :=
  Return ("sent: " +:+ req).

Definition construct (opts : option string) : Completion JSError SampleTransport :=
  Transport.constructor baseConstructor getProxy newProxyAgent opts.

(** An instance whose [module] field is unset, as the base class leaves it. *)
Definition bareTransport : SampleTransport := baseOf None.

(** The instances the constructor makes without and with a proxy. *)
Definition directTransport : SampleTransport :=
  Transport.mkTransport None "https://key@sentry.example/1" (Some Transport.https)
    (Some (Transport.HttpsAgent Transport.defaultAgentOptions)).

Definition proxy : string := "http://proxy.example:8080".

Definition proxiedTransport : SampleTransport :=
  Transport.mkTransport (Some proxy) "https://key@sentry.example/1" (Some Transport.https)
    (Some (Transport.HttpsProxyAgent "agent for http://proxy.example:8080")).

(** A route handler that throws, a capture that succeeds and a flush whose
    promise rejects; the state is the list of SDK calls made so far. *)
Definition failingHandler (req res : string) : Loader.Task (list string) string unit :=
  Loader.task_throw "handler failed".

Definition capture (err : string) : Loader.Task (list string) string string :=
  fun w => (Return "event-id", w ++ ["captureException " +:+ err])%list.

Definition flushOk (timeout : Z) : Loader.Task (list string) string bool :=
  fun w => (Return true, w ++ ["flush"])%list.

Definition flushRejects (timeout : Z) : Loader.Task (list string) string bool :=
  fun w => (Throw "flush rejected", w ++ ["flush"])%list.

(** A loader context and a compiler for which the default export is an
    object. *)
Definition context : Loader.LoaderContext :=
  {| Loader.resource := "pages/api/hello.js";
     Loader.loaders :=
       [ {| Loader.options := {| Loader.sdkPath := "/app/node_modules/@sentry/nextjs" |};
            Loader.path := "/app/node_modules/@sentry/nextjs/dist/utils/api-wrapping-loader.js" |} ] |}.

Definition compileToObject (code filename : string) : Completion JSError Loader.JSValue :=
  Return (Loader.VObject "{}").

(** The entry object Next.js builds for the server. *)
Definition serverEntry : gmap string Config.EntryValue :=
  {[ "pages/_document" := Config.EArray ["next/dist/pages/_document"];
     "pages/api/hello" := Config.EString "./pages/api/hello.js";
     "main.js" := Config.EArray [] ]}.

End Sample.

(** ** Request tracing of the Next.js server
    (src/packages/nextjs/src/utils/instrumentServer.ts) *)

Module Instrument.

(** instrumentServer.ts, line 24: what the matcher of a route answers, a
    boolean or the path it matched. *)
Inductive MatchResult : Type :=
| MatchBoolean (b : bool)
| MatchPath (path : list string).

(** [!regexMatch]: an object is truthy, a boolean is itself. *)
Definition falsy (m : MatchResult) : bool :=
  match m with
  | MatchBoolean b => negb b
  | MatchPath _ => false
  end.

(** instrumentServer.ts, lines 17-21, without [generatePublicRoutes], which
    only the request handler wrapper calls. *)
Record Server : Type := mkServer { dir : string; publicDir : string }.

(** instrumentServer.ts, lines 11-15: the field of NextServer that the
    getter reads. *)
Record NextServer : Type := mkNextServer { server : Server }.

Section Tracing.

(** [http.IncomingHttpHeaders], the cookies of a request, the transactions
    of @sentry/types and [http.ServerResponse]. *)
Variables Headers Cookies Transaction ServerResponse : Type.

(** instrumentServer.ts, lines 38-41, with the [method] that line 146 reads. *)
Record NextRequest : Type := mkNextRequest {
  url : string;
  method : option string;
  headers : Headers;
  cookies : Cookies
}.

(** instrumentServer.ts, lines 23-26.  [route_match] is the field [match];
    [route_fn] is the field [fn], called with the request, an empty object
    and the match, and answers the [finished] of what its promise resolves
    to. *)
Record Route : Type := mkRoute {
  route_match : string -> Completion JSError MatchResult;
  route_fn : NextRequest -> MatchResult -> Completion JSError bool
}.

(** instrumentServer.ts, lines 236-254. *)
Definition _isStaticResourceRequest (req : NextRequest) (publicRoute : Route)
    : Completion JSError bool :=
  if String.eqb (url req) "/" then Return false
  else
    regexMatch ← route_match publicRoute (url req);
    if falsy regexMatch then Return false
    else
      finished ← route_fn publicRoute req regexMatch;
      Return finished.

(** instrumentServer.ts, lines 213-227. *)
Definition _shouldTraceRequest (req : NextRequest) (publicRoute : Route)
    : Completion JSError bool :=
  if String.prefix "/_next/" (url req) then Return false
  else if String.prefix "/static/" (url req) then Return false
  else
    static ← _isStaticResourceRequest req publicRoute;
    if (static : bool) then Return false else Return true.

(** instrumentServer.ts, lines 45-56: the data kept on the response. *)
Record RequestData : Type := mkRequestData {
  request_url : string;
  request_headers : Headers;
  request_cookies : Cookies
}.

Record SentryData : Type := mkSentryData {
  transaction : option Transaction;
  parameterizedPath : option string;
  params : option (gmap string string);
  request : RequestData
}.

(** instrumentServer.ts, lines 43-57: a response is the [http.ServerResponse]
    and its [__sentry__] field. *)
Record NextResponse : Type := mkNextResponse {
  __sentry__ : SentryData;
  response : ServerResponse
}.

(** instrumentServer.ts, line 30: the fourth argument of the renderer. *)
Record RenderOptions : Type := mkRenderOptions { query : gmap string string }.

(** instrumentServer.ts, line 31; the response is an object that the
    renderer can change, so a renderer takes it and gives it back. *)
Definition Renderer : Type :=
  Server -> NextRequest -> NextResponse -> string -> RenderOptions ->
  NextResponse * Completion JSError (option string).

(** instrumentServer.ts, lines 182-198.  The comparison of [pathname] with
    the first piece of [req.url] guards an empty block. *)
Definition makeWrappedRenderer (origRender : Renderer) : Renderer :=
  fun this req res pathname options =>
    let res :=
      mkNextResponse
        (mkSentryData (transaction (__sentry__ res)) (Some pathname)
           (params (__sentry__ res)) (request (__sentry__ res)))
        (response res) in
    let res :=
      mkNextResponse
        (mkSentryData (transaction (__sentry__ res)) (parameterizedPath (__sentry__ res))
           (Some (query options)) (request (__sentry__ res)))
        (response res) in
    origRender this req res pathname options.

End Tracing.

Arguments mkNextRequest {_ _} _ _ _ _.
Arguments url {_ _} _.
Arguments method {_ _} _.
Arguments headers {_ _} _.
Arguments cookies {_ _} _.
Arguments mkRoute {_ _} _ _.
Arguments route_match {_ _} _.
Arguments route_fn {_ _} _.
Arguments _isStaticResourceRequest {_ _} _ _.
Arguments _shouldTraceRequest {_ _} _ _.
Arguments mkRequestData {_ _} _ _ _.
Arguments mkSentryData {_ _ _} _ _ _ _.
Arguments transaction {_ _ _} _.
Arguments parameterizedPath {_ _ _} _.
Arguments params {_ _ _} _.
Arguments request {_ _ _} _.
Arguments mkNextResponse {_ _ _ _} _ _.
Arguments __sentry__ {_ _ _ _} _.
Arguments response {_ _ _ _} _.
Arguments makeWrappedRenderer {_ _ _ _} _ _ _ _ _ _.

(** *** The handler getter and its closure *)

(** instrumentServer.ts, line 60: the module-level [closure] object, empty
    at first; a flag that is not set is falsy. *)
Record Closure : Type := mkClosure {
  closure_server : option Server;
  projectRootDir : option string;
  wrappingComplete : bool
}.

Definition emptyClosure : Closure :=
  {| closure_server := None; projectRootDir := None; wrappingComplete := false |}.

(** The three wrapper factories that the file hands to [fill]. *)
Inductive Wrapper : Type :=
| WrapHandlerGetter
| WrapRenderer
| WrapReqHandler.

Section HandlerGetter.

(** The state outside this module (the prototypes, [process.env], the
    Next.js server), the prototype objects, and the request handlers. *)
Variables Outside Prototype ReqHandler : Type.

(** [fill] of @sentry/utils patches a method of a prototype with what the
    factory makes of the original; the factory runs inside [fill] and can
    read the closure.  [Object.getPrototypeOf] and the assignment to
    [process.env.__SENTRY_PROJECT_ROOT] act on the outside state, as does
    [Object.getPrototypeOf(createNextServer({}))]. *)
Variable fill :
  Prototype -> string -> Wrapper -> Closure -> Outside -> Completion JSError unit * Outside.
Variable getPrototypeOf : Server -> Prototype.
Variable setProjectRootEnv : string -> Outside -> Outside.
Variable createNextServerPrototype : Outside -> Completion JSError Prototype * Outside.

(** instrumentServer.ts, line 28: a getter of the request handler. *)
Definition HandlerGetter : Type :=
  NextServer -> Outside -> Completion JSError ReqHandler * Outside.

(** instrumentServer.ts, lines 87-111: the function the factory returns,
    run on the closure and the outside state. *)
Definition makeWrappedHandlerGetter (origHandlerGetter : HandlerGetter)
    (this : NextServer) (closure : Closure) (outside : Outside)
    : Completion JSError ReqHandler * (Closure * Outside) :=
  if wrappingComplete closure
  then
    let '(handler, outside) := origHandlerGetter this outside in
    (handler, (closure, outside))
  else
    let closure :=
      mkClosure (Some (server this)) (projectRootDir closure) (wrappingComplete closure) in
    let closure :=
      mkClosure (closure_server closure) (Some (dir (server this)))
        (wrappingComplete closure) in
    let outside := setProjectRootEnv (dir (server this)) outside in
    let serverPrototype := getPrototypeOf (server this) in
    match fill serverPrototype "renderToHTMLWithComponents" WrapRenderer closure outside with
    | (Throw e, outside) => (Throw e, (closure, outside))
    | (Return _, outside) =>
        match fill serverPrototype "handleRequest" WrapReqHandler closure outside with
        | (Throw e, outside) => (Throw e, (closure, outside))
        | (Return _, outside) =>
            let closure :=
              mkClosure (closure_server closure) (projectRootDir closure) true in
            let '(handler, outside) := origHandlerGetter this outside in
            (handler, (closure, outside))
        end
    end.

(** instrumentServer.ts, lines 70-78; the declared result is a string, the
    value is whatever [closure.projectRootDir] holds. *)
Definition instrumentServerForTracing (closure : Closure) (outside : Outside)
    : Completion JSError (option string) * (Closure * Outside) :=
  match createNextServerPrototype outside with
  | (Throw e, outside) => (Throw e, (closure, outside))
  | (Return nextServerPrototype, outside) =>
      match fill nextServerPrototype "getServerRequestHandler" WrapHandlerGetter
              closure outside with
      | (Throw e, outside) => (Throw e, (closure, outside))
      | (Return _, outside) => (Return (projectRootDir closure), (closure, outside))
      end
  end.

End HandlerGetter.

Arguments makeWrappedHandlerGetter {_ _ _} _ _ _ _ _ _ _.
Arguments instrumentServerForTracing {_ _} _ _ _ _.

End Instrument.

(** *** The wrapped request handler of the server
    (instrumentServer.ts, lines 119-172) *)

Module ReqHandler.

(** The argument of [Sentry.startTransaction]. *)
Record TransactionContext : Type := mkTransactionContext {
  context_name : string;
  context_op : string
}.

(** The listener that the wrapped handler registers for ['finish']; it
    closes over the request. *)
Inductive Listener (Request : Type) : Type :=
| FinishListener (req : Request).
Arguments FinishListener {Request} req.

Section WrappedReqHandler.

(** [http.IncomingHttpHeaders], the cookies of a request,
    [http.ServerResponse], the parsed url, the state outside the handler
    (the SDK, the event loop) and the part of a transaction that only the
    SDK reads and writes. *)
Variables Headers Cookies ServerResponse ParsedUrl Outside Span : Type.

(** instrumentServer.ts, lines 160-163: the object stored under
    [transaction.data]; [pathParams] is there only when [params] is set. *)
Record TransactionData : Type := mkTransactionData {
  data_request : Instrument.RequestData Headers Cookies;
  pathParams : option (gmap string string)
}.

(** The fields of a transaction of @sentry/types that the handler assigns,
    and the rest of the object. *)
Record Transaction : Type := mkTransaction {
  name : string;
  data : option TransactionData;
  span : Span
}.

#[local] Abbreviation NextRequest := (Instrument.NextRequest Headers Cookies).
#[local] Abbreviation NextResponse :=
  (Instrument.NextResponse Headers Cookies Transaction ServerResponse).

(** instrumentServer.ts, line 29; the response and the outside state are
    taken and given back. *)
Definition ReqHandler : Type :=
  Instrument.Server -> NextRequest -> NextResponse -> option ParsedUrl -> Outside ->
  Completion JSError unit * (NextResponse * Outside).

(** [hasTracingEnabled] of @sentry/tracing, [Sentry.startTransaction],
    [Sentry.getCurrentHub().getScope()?.setSpan], the methods
    [setHttpStatus] and [finish] of a transaction, [res.once] and
    [res.statusCode] of Node, and [String.prototype.toUpperCase]. *)
Variable hasTracingEnabled : Outside -> bool.
Variable startTransaction :
  TransactionContext -> Outside -> Completion JSError Transaction * Outside.
Variable setSpanOnScope : Transaction -> Outside -> Outside.
Variable setHttpStatus : Z -> Transaction -> Transaction.
Variable finish : Transaction -> Outside -> Outside.
Variable once : string -> Listener NextRequest -> ServerResponse -> ServerResponse.
Variable statusCode : ServerResponse -> Z.
Variable toUpperCase : string -> string.

(** [req.method || 'GET']: a missing or empty method is falsy. *)
Definition methodOrGet (req : NextRequest) : string :=
  if truthy (Instrument.method req) then default "" (Instrument.method req) else "GET".

(** instrumentServer.ts, lines 146-149: the context of the transaction of
    a request. *)
Definition requestContext (req : NextRequest) : TransactionContext :=
  {| context_name := toUpperCase (methodOrGet req) +:+ " " +:+ Instrument.url req;
     context_op := "http.server" |}.

(** instrumentServer.ts, lines 137-171: the function that
    [makeWrappedReqHandler] returns, for the public route that it computed
    when the wrapper was made. *)
Definition wrappedReqHandler (publicRoute : Instrument.Route Headers Cookies)
    (origReqHandler : ReqHandler) : ReqHandler :=
  fun this req res parsedUrl outside =>
    let res :=
      Instrument.mkNextResponse
        (Instrument.mkSentryData None None None
           (Instrument.mkRequestData (Instrument.url req) (Instrument.headers req)
              (Instrument.cookies req)))
        (Instrument.response res) in
    let decision :=
      if hasTracingEnabled outside
      then Instrument._shouldTraceRequest req publicRoute
      else Return false in
    match decision with
    | Throw e => (Throw e, (res, outside))
    | Return false =>
        let res :=
          Instrument.mkNextResponse (Instrument.__sentry__ res)
            (once "finish" (FinishListener req) (Instrument.response res)) in
        origReqHandler this req res parsedUrl outside
    | Return true =>
        match startTransaction (requestContext req) outside with
        | (Throw e, outside) => (Throw e, (res, outside))
        | (Return transaction, outside) =>
            let outside := setSpanOnScope transaction outside in
            let res :=
              Instrument.mkNextResponse
                (Instrument.mkSentryData (Some transaction)
                   (Instrument.parameterizedPath (Instrument.__sentry__ res))
                   (Instrument.params (Instrument.__sentry__ res))
                   (Instrument.request (Instrument.__sentry__ res)))
                (Instrument.response res) in
            let res :=
              Instrument.mkNextResponse (Instrument.__sentry__ res)
                (once "finish" (FinishListener req) (Instrument.response res)) in
            origReqHandler this req res parsedUrl outside
        end
    end.

(** instrumentServer.ts, lines 157-166: the callback given to
    [setImmediate], run on the transaction of the response.  A replacement
    that is [undefined] is the text ['undefined']. *)
Definition finishTransaction (req : NextRequest) (res : NextResponse)
    (transaction : Transaction) (outside : Outside) : Transaction * Outside :=
  let transaction :=
    mkTransaction
      (JS.replace (name transaction) (Instrument.url req)
         (default "undefined" (Instrument.parameterizedPath (Instrument.__sentry__ res))))
      (data transaction) (span transaction) in
  let transaction :=
    mkTransaction (name transaction)
      (Some {| data_request := Instrument.request (Instrument.__sentry__ res);
               pathParams := Instrument.params (Instrument.__sentry__ res) |})
      (span transaction) in
  let transaction := setHttpStatus (statusCode (Instrument.response res)) transaction in
  (transaction, finish transaction outside).

(** instrumentServer.ts, lines 152-168: the listener for ['finish']: with
    a transaction on the response it schedules [finishTransaction], without
    one it does nothing. *)
Definition onFinish (listener : Listener NextRequest) (res : NextResponse)
    : option (NextRequest * Transaction) :=
  match listener with
  | FinishListener req =>
      match Instrument.transaction (Instrument.__sentry__ res) with
      | Some transaction => Some (req, transaction)
      | None => None
      end
  end.

End WrappedReqHandler.

Arguments mkTransactionData {_ _} _ _.
Arguments mkTransaction {_ _ _} _ _ _.
Arguments name {_ _ _} _.
Arguments data {_ _ _} _.
Arguments span {_ _ _} _.
Arguments data_request {_ _} _.
Arguments pathParams {_ _} _.
Arguments methodOrGet {_ _} _.
Arguments requestContext {_ _} _ _.
Arguments wrappedReqHandler {Headers Cookies ServerResponse ParsedUrl Outside Span}.
Arguments finishTransaction {Headers Cookies ServerResponse Outside Span}.
Arguments onFinish {_ _ _ _} _ _.

End ReqHandler.

(** ** Notions used to state properties of the Next.js code *)

Module Notions.

#[local] Open Scope list_scope.

(** A replacement text in which [String.prototype.replace] finds no
    pattern: it holds no dollar sign. *)
Fixpoint dollarFree (s : string) : bool :=
  match s with
  | EmptyString => true
  | String c rest => negb (Ascii.eqb c "$"%char) && dollarFree rest
  end.

(** A character that does not occur in a string. *)
Fixpoint absent (c : ascii) (s : string) : bool :=
  match s with
  | EmptyString => true
  | String a rest => negb (Ascii.eqb a c) && absent c rest
  end.

(** The loaders that [getOptions] accepts. *)
Definition isThisLoader (loader : Loader.Loader) : bool :=
  JS.includes (Loader.path loader) "nextjs/dist/utils/api-wrapping-loader".

(** The entry property, awaited: an object as it is, a function through
    the promise it returns. *)
Definition resolvesTo (ep : Config.EntryProperty) (o : gmap string Config.EntryValue) : Prop :=
  ep = Config.EPObject o \/ exists f, ep = Config.EPFunction f /\ f () = Return o.

(** A value of the entry object with a file put before its entry points;
    a value without entry points is left as it is. *)
Definition prependEntry (file : string) (v : Config.EntryValue) : Config.EntryValue :=
  match v with
  | Config.EString s => Config.EArray [file; s]
  | Config.EArray l => Config.EArray (file :: l)
  | Config.EObject o =>
      match o !! "import" with
      | Some (Config.PString s) => Config.EObject (<["import" := Config.PArray [file; s]]> o)
      | Some (Config.PArray l) => Config.EObject (<["import" := Config.PArray (file :: l)]> o)
      | _ => v
      end
  end.

(** The entries that line 161 or line 170 can spread: those of a string, an
    array, or an object whose [import] is a string, an array or another
    iterable; no other value has any. *)
Definition importedEntries (v : Config.EntryValue) : option (list string) :=
  match v with
  | Config.EString s => Some [s]
  | Config.EArray l => Some l
  | Config.EObject o =>
      match o !! "import" with
      | Some (Config.PString s) => Some [s]
      | Some (Config.PArray l) => Some l
      | Some (Config.PIterable _ l) => Some l
      | Some (Config.POther _) | None => None
      end
  end.

(** The plugins of a configuration that are instances of
    SentryWebpackPlugin. *)
Definition isSentryPlugin (p : Config.Plugin) : bool :=
  match p with
  | Config.SentryWebpackPlugin _ => true
  | Config.OtherPlugin _ => false
  end.

(** api-wrapping-loader.ts, lines 221-226: the configuration that the
    provided [webpack] function makes, or the given one without such a
    function. *)
Definition providedConfig (providedExports : Config.NextConfigExports)
    (config : Config.WebpackConfig) (options : Config.WebpackOptions)
    : Completion JSError Config.WebpackConfig :=
  match Config.webpack providedExports with
  | Some f => snd (f config options)
  | None => Return config
  end.

End Notions.

(** ** More sample inputs *)

Module Fixture.

#[local] Open Scope list_scope.

Definition request (url : string) : Instrument.NextRequest unit unit :=
  Instrument.mkNextRequest url (Some "GET") () ().

(** A route for the public folder whose matcher throws: it must not be
    asked about requests that are filtered out before. *)
Definition throwingRoute : Instrument.Route unit unit :=
  Instrument.mkRoute (fun _ => Throw (ThrownValue "matcher failed"))
    (fun _ _ => Throw (ThrownValue "fn failed")).

(** A route that matches every url below [/images/] and finds the file. *)
Definition imagesRoute : Instrument.Route unit unit :=
  Instrument.mkRoute
    (fun url =>
       if String.prefix "/images/" url
       then Return (Instrument.MatchPath ["images"]) else Return (Instrument.MatchBoolean false))
    (fun _ _ => Return true).

(** A payload builder that throws, as [JSON.stringify] does on an event
    that refers to itself. *)
Definition throwingBuilder (payload : string) (api : string) : Completion JSError string :=
  Throw (TypeError "Converting circular structure to JSON").

(** The entry object Next.js builds for the client, and one whose entry
    point object lists its imports in a Set. *)
Definition clientEntry : gmap string Config.EntryValue :=
  {[ "main" := Config.EString "./client/index.js";
     "pages/_app" := Config.EArray ["next/dist/pages/_app"];
     "main.js" := Config.EArray [] ]}.

Definition setEntry : gmap string Config.EntryValue :=
  {[ "main" := Config.EObject {[ "import" := Config.PIterable "Set" ["./client/index.js"] ]} ]}.

(** Two loaders, the second of which is this loader. *)
Definition otherLoader : Loader.Loader :=
  {| Loader.options := {| Loader.sdkPath := "/unused" |};
     Loader.path := "/app/node_modules/babel-loader/lib/index.js" |}.

Definition otherContext : Loader.LoaderContext :=
  {| Loader.resource := "pages/api/hello.js"; Loader.loaders := [otherLoader] |}.

Definition compileToHandler (code filename : string) : Completion JSError Loader.JSValue :=
  Return (Loader.VFunction "(req, res) => res.end()").

Definition compileFails (code filename : string) : Completion JSError Loader.JSValue :=
  Throw (ThrownValue "SyntaxError").

(** A handler that returns, leaving a mark in the state. *)
Definition okHandler (req res : string) : Loader.Task (list string) string unit :=
  fun w => (Return (), w ++ ["handled " +:+ req]).

(** A webpack configuration as Next.js hands it over, and a user's webpack
    function that sets its own devtool. *)
Definition config : Config.WebpackConfig :=
  {| Config.devtool := "eval";
     Config.plugins := [Config.OtherPlugin "DefinePlugin"];
     Config.entry := Config.EPFunction (fun _ => Return Sample.serverEntry) |}.

Definition userWebpack : Config.WebpackExport :=
  fun config options =>
    ([], Return {| Config.devtool := "cheap-source-map";
                   Config.plugins := Config.plugins config;
                   Config.entry := Config.entry config |}).

Definition userExports : Config.NextConfigExports :=
  {| Config.experimental := None; Config.exportedPlugins := None;
     Config.productionBrowserSourceMaps := Some false;
     Config.webpack := Some userWebpack |}.

(** The outside state of the server instrumentation as a log of what was
    done to it. *)
Definition logFill (p name : string) (w : Instrument.Wrapper) (c : Instrument.Closure)
    (log : list string) : Completion JSError unit * list string :=
  (Return (), log ++ ["fill " +:+ p +:+ "." +:+ name]).

Definition logGetter : Instrument.HandlerGetter (list string) string :=
  fun this log => (Return "handler", log ++ ["getServerRequestHandler"]).

Definition nextServer : Instrument.NextServer :=
  {| Instrument.server := {| Instrument.dir := "/app"; Instrument.publicDir := "/app/public" |} |}.

Definition wrappedGetter :=
  Instrument.makeWrappedHandlerGetter logFill (fun _ => "Server.prototype")
    (fun dir log => log ++ ["__SENTRY_PROJECT_ROOT=" +:+ dir]) logGetter.

(** The request handling of the server with the SDK calls written to a
    log: tracing is enabled, upper case is taken of the methods in use. *)
Definition SampleTransaction : Type := ReqHandler.Transaction unit unit unit.

Definition SampleResponse : Type := Instrument.NextResponse unit unit SampleTransaction unit.

Definition startLogged (context : ReqHandler.TransactionContext) (log : list string)
    : Completion JSError SampleTransaction * list string :=
  (Return (ReqHandler.mkTransaction (ReqHandler.context_name context) None ()),
   log ++ ["startTransaction " +:+ ReqHandler.context_name context]).

Definition upper (s : string) : string :=
  if String.eqb s "get" then "GET" else if String.eqb s "post" then "POST" else s.

Definition handledLogged : ReqHandler.ReqHandler unit unit unit unit (list string) unit :=
  fun this req res parsedUrl log => (Return (), (res, log ++ ["handleRequest"])).

Definition wrappedHandler (publicRoute : Instrument.Route unit unit) :=
  ReqHandler.wrappedReqHandler (fun _ : list string => true) startLogged
    (fun transaction log => log ++ ["setSpan " +:+ ReqHandler.name transaction])
    (fun _ _ r => r) upper publicRoute handledLogged.

Definition blankResponse : SampleResponse :=
  Instrument.mkNextResponse
    (Instrument.mkSentryData None None None (Instrument.mkRequestData "" () ())) ().

Definition renderedResponse : SampleResponse :=
  Instrument.mkNextResponse
    (Instrument.mkSentryData None (Some "/users/[id]") (Some {[ "id" := "42" ]})
       (Instrument.mkRequestData "/users/42" () ())) ().

Definition apiResponse : SampleResponse :=
  Instrument.mkNextResponse
    (Instrument.mkSentryData None None None (Instrument.mkRequestData "/api/hello" () ())) ().

Definition finishLogged (req : Instrument.NextRequest unit unit) (res : SampleResponse)
    (transaction : SampleTransaction) (log : list string) :=
  ReqHandler.finishTransaction (fun _ t => t)
    (fun t log => log ++ ["finish " +:+ ReqHandler.name t]) (fun _ => 200%Z)
    req res transaction log.

End Fixture.

(** * Properties *)

(** ** The https transport *)

Section TransportFacts.

Context {TransportOptions API Event Session SentryRequest PromiseResponse ProxyAgent : Type}.
Context (BaseTransport_constructor :
  TransportOptions ->
  Completion JSError (Transport.HTTPSTransport TransportOptions API ProxyAgent)).
Context (_getProxy :
  Transport.HTTPSTransport TransportOptions API ProxyAgent -> string -> option string).
Context (_sendWithModule :
  Transport.HTTPSTransport TransportOptions API ProxyAgent -> Transport.HTTPModule ->
  SentryRequest -> Transport.Payload Event Session -> Completion JSError PromiseResponse).
Context (eventToSentryRequest : Event -> API -> Completion JSError SentryRequest).
Context (sessionToSentryRequest : Session -> API -> Completion JSError SentryRequest).
Context (newHttpsProxyAgent : string -> Completion JSError ProxyAgent).

#[local] Abbreviation constructor :=
  (Transport.constructor BaseTransport_constructor _getProxy newHttpsProxyAgent).
#[local] Abbreviation sendEvent := (Transport.sendEvent _sendWithModule eventToSentryRequest).
#[local] Abbreviation sendSession :=
  (Transport.sendSession _sendWithModule sessionToSentryRequest).
#[local] Abbreviation resolvedProxy opts base :=
  (_getProxy (Transport.afterSuper opts base) "https").

(** The constructor, step by step: it stops where the superclass
    constructor or the creation of the proxy agent throws, and otherwise
    sets [module] and [client] on what the superclass built. *)
Lemma constructor_cases opts :
  match BaseTransport_constructor opts with
  | Throw e => constructor opts = Throw e
  | Return base =>
      match resolvedProxy opts base with
      | Some proxy =>
          if String.eqb proxy ""
          then constructor opts =
               Return (Transport.mkTransport opts (Transport._api base) (Some Transport.https)
                         (Some (Transport.HttpsAgent Transport.defaultAgentOptions)))
          else match newHttpsProxyAgent proxy with
               | Throw e => constructor opts = Throw e
               | Return a =>
                   constructor opts =
                   Return (Transport.mkTransport opts (Transport._api base)
                             (Some Transport.https) (Some (Transport.HttpsProxyAgent a)))
               end
      | None =>
          constructor opts =
          Return (Transport.mkTransport opts (Transport._api base) (Some Transport.https)
                    (Some (Transport.HttpsAgent Transport.defaultAgentOptions)))
      end
  end.
Proof.
  unfold Transport.constructor, mbind, completion_mbind, completion_bind.
  destruct (BaseTransport_constructor opts) as [base|e]; [|reflexivity].
  destruct (resolvedProxy opts base) as [proxy|]; cbn; [|reflexivity].
  destruct (String.eqb proxy ""); cbn; [reflexivity|].
  destruct (newHttpsProxyAgent proxy); reflexivity.
Qed.

Lemma constructor_sets_module opts t :
  constructor opts = Return t -> Transport.module t = Some Transport.https.
Proof.
  intros H. pose proof (constructor_cases opts) as Hc.
  destruct (BaseTransport_constructor opts) as [base|e]; [|congruence].
  destruct (resolvedProxy opts base) as [proxy|].
  - destruct (String.eqb proxy "").
    + rewrite Hc in H. injection H as <-. reflexivity.
    + destruct (newHttpsProxyAgent proxy); [|congruence].
      rewrite Hc in H. injection H as <-. reflexivity.
  - rewrite Hc in H. injection H as <-. reflexivity.
Qed.

(** C1, as amended: when no proxy is resolved, the agent the constructor
    builds has keep-alive switched off, at most 30 concurrent sockets and a
    timeout of 2000 ms. *)
Theorem default_agent_no_keep_alive opts base t :
  BaseTransport_constructor opts = Return base ->
  truthy (resolvedProxy opts base) = false ->
  constructor opts = Return t ->
  exists o,
    Transport.client t = Some (Transport.HttpsAgent o) /\
    Transport.keepAlive o = false /\
    Transport.maxSockets o = 30%Z /\
    Transport.timeout o = 2000%Z.
Proof.
  intros Hbase Hproxy H.
  pose proof (constructor_cases opts) as Hc. rewrite Hbase in Hc.
  exists Transport.defaultAgentOptions.
  destruct (resolvedProxy opts base) as [proxy|]; cbn in Hproxy.
  - apply negb_false_iff in Hproxy. rewrite Hproxy in Hc.
    rewrite Hc in H. injection H as <-. repeat split.
  - rewrite Hc in H. injection H as <-. repeat split.
Qed.

(** C2, as amended: on an instance made by the constructor the guard that
    throws 'No module available' is never taken, because the constructor
    always sets [module]; [sendEvent] and [sendSession] have no handler of
    their own, so they throw synchronously exactly when the payload builder
    or the shared send routine throws, and then with that exception. *)
Theorem send_throws_only_from_collaborators opts t event session :
  constructor opts = Return t ->
  Transport.module t = Some Transport.https /\
  (forall e,
     sendEvent t event = Throw e <->
     eventToSentryRequest event (Transport._api t) = Throw e \/
     exists req,
       eventToSentryRequest event (Transport._api t) = Return req /\
       _sendWithModule t Transport.https req (Transport.PEvent event) = Throw e) /\
  (forall e,
     sendSession t session = Throw e <->
     sessionToSentryRequest session (Transport._api t) = Throw e \/
     exists req,
       sessionToSentryRequest session (Transport._api t) = Return req /\
       _sendWithModule t Transport.https req (Transport.PSession session) = Throw e).
Proof.
  intros H. pose proof (constructor_sets_module _ _ H) as Hm.
  split; [exact Hm|].
  unfold Transport.sendEvent, Transport.sendSession. rewrite Hm.
  unfold mbind, completion_mbind, completion_bind.
  split; intros e.
  - destruct (eventToSentryRequest event (Transport._api t)) as [req|e'].
    + split; [intros Hs; right; exists req; auto|].
      intros [Hb | (req' & [= <-] & Hs)]; [discriminate | exact Hs].
    + split; [intros [= <-]; left; reflexivity|].
      intros [[= <-] | (req' & Hb & _)]; [reflexivity | discriminate].
  - destruct (sessionToSentryRequest session (Transport._api t)) as [req|e'].
    + split; [intros Hs; right; exists req; auto|].
      intros [Hb | (req' & [= <-] & Hs)]; [discriminate | exact Hs].
    + split; [intros [= <-]; left; reflexivity|].
      intros [[= <-] | (req' & Hb & _)]; [reflexivity | discriminate].
Qed.

(** C3: the constructor sets the client from the options: the proxy
    agent made for the proxy resolved for the https scheme, and without one
    (no proxy, or the empty string) an https agent with at most 30 sockets
    and a 2000 ms timeout, which agrees with the defaults of the
    configuration (queue size 30, network timeout between 2 s and 5 s). *)
Theorem constructor_configures_client opts base t :
  BaseTransport_constructor opts = Return base ->
  constructor opts = Return t ->
  if truthy (resolvedProxy opts base)
  then exists proxy agent,
         resolvedProxy opts base = Some proxy /\
         newHttpsProxyAgent proxy = Return agent /\
         Transport.client t = Some (Transport.HttpsProxyAgent agent)
  else exists o,
         Transport.client t = Some (Transport.HttpsAgent o) /\
         Transport.maxSockets o = 30%Z /\
         Transport.timeout o = 2000%Z /\
         (2000 <= Transport.timeout o <= 5000)%Z.
Proof.
  intros Hbase H.
  pose proof (constructor_cases opts) as Hc. rewrite Hbase in Hc.
  destruct (resolvedProxy opts base) as [proxy|]; cbn.
  - destruct (String.eqb proxy ""); cbn.
    + rewrite Hc in H. injection H as <-.
      exists Transport.defaultAgentOptions. cbn. repeat split; lia.
    + destruct (newHttpsProxyAgent proxy) as [agent|e] eqn:Hagent; [|congruence].
      rewrite Hc in H. injection H as <-.
      exists proxy, agent. repeat split. exact Hagent.
  - rewrite Hc in H. injection H as <-.
    exists Transport.defaultAgentOptions. cbn. repeat split; lia.
Qed.

(** C4: on an instance made by the constructor, [sendEvent] hands to
    the shared send routine the https module, the request that
    [eventToSentryRequest] builds from the event and the API of the
    instance, and the event, and returns its result; [sendSession] does
    so with [sessionToSentryRequest] and the session. *)
Theorem send_delivers_built_request opts t event session :
  constructor opts = Return t ->
  sendEvent t event =
    (req ← eventToSentryRequest event (Transport._api t);
     _sendWithModule t Transport.https req (Transport.PEvent event)) /\
  sendSession t session =
    (req ← sessionToSentryRequest session (Transport._api t);
     _sendWithModule t Transport.https req (Transport.PSession session)).
Proof.
  intros H. pose proof (constructor_sets_module _ _ H) as Hm.
  unfold Transport.sendEvent, Transport.sendSession. rewrite Hm. split; reflexivity.
Qed.


End TransportFacts.

(** The sample transport built without a proxy. *)
Lemma sample_construct_no_proxy : Sample.construct None = Return Sample.directTransport.
Proof. reflexivity. Qed.

(** C1 as stated fails: the agent built without a proxy does not keep
    connections alive. *)
Lemma default_agent_keep_alive_counterexample :
  ~ (exists t o,
       Sample.construct None = Return t /\
       Transport.client t = Some (Transport.HttpsAgent o) /\
       Transport.keepAlive o = true).
Proof.
  intros (t & o & Ht & Hc & Hk).
  rewrite sample_construct_no_proxy in Ht. injection Ht as <-.
  cbn in Hc. injection Hc as <-. discriminate Hk.
Qed.

Lemma default_agent_no_keep_alive_witness :
  Sample.construct None = Return Sample.directTransport /\
  exists o,
    Transport.client Sample.directTransport = Some (Transport.HttpsAgent o) /\
    Transport.keepAlive o = false /\
    Transport.maxSockets o = 30%Z /\
    Transport.timeout o = 2000%Z.
Proof.
  split; [reflexivity|].
  apply (default_agent_no_keep_alive Sample.baseConstructor Sample.getProxy
           Sample.newProxyAgent None Sample.bareTransport); reflexivity.
Defined.

(** C2 as stated fails: on a constructed instance [sendEvent] throws what
    the payload builder throws. *)
Lemma send_throws_builder_exception_counterexample :
  Sample.construct None = Return Sample.directTransport /\
  ~ returns (Transport.sendEvent Sample.sendWithModule Fixture.throwingBuilder
               Sample.directTransport "event").
Proof.
  split; [reflexivity|]. intros H. exact H.
Qed.

Lemma send_throws_only_from_collaborators_witness :
  Sample.construct None = Return Sample.directTransport /\
  Transport.sendEvent Sample.sendWithModule Fixture.throwingBuilder
    Sample.directTransport "event"
  = Throw (TypeError "Converting circular structure to JSON").
Proof.
  split; [reflexivity|].
  apply (proj1 (proj2 (send_throws_only_from_collaborators Sample.baseConstructor
    Sample.getProxy Sample.sendWithModule Fixture.throwingBuilder Sample.toRequest
    Sample.newProxyAgent None Sample.directTransport "event" "session" eq_refl))).
  left. reflexivity.
Defined.

Lemma constructor_configures_client_witness :
  Sample.construct (Some Sample.proxy) = Return Sample.proxiedTransport /\
  exists proxy agent,
    Sample.getProxy
      (Transport.afterSuper (Some Sample.proxy) (Sample.baseOf (Some Sample.proxy))) "https"
      = Some proxy /\
    Sample.newProxyAgent proxy = Return agent /\
    Transport.client Sample.proxiedTransport = Some (Transport.HttpsProxyAgent agent).
Proof.
  split; [reflexivity|].
  apply (constructor_configures_client Sample.baseConstructor Sample.getProxy
           Sample.newProxyAgent
           (Some Sample.proxy) (Sample.baseOf (Some Sample.proxy)) Sample.proxiedTransport);
    reflexivity.
Defined.

Lemma send_delivers_built_request_witness :
  Sample.construct None = Return Sample.directTransport /\
  Transport.sendEvent Sample.sendWithModule Sample.toRequest Sample.directTransport "event"
  = Return "sent: https://key@sentry.example/1 <- event".
Proof.
  split; [reflexivity|].
  refine (proj1 (send_delivers_built_request Sample.baseConstructor Sample.getProxy
    Sample.sendWithModule Sample.toRequest Sample.toRequest Sample.newProxyAgent
    None Sample.directTransport "event" "session" _)).
  reflexivity.
Defined.


(** ** The API route loader *)

Section WrappingFacts.

Context {World Err NextApiRequest NextApiResponse : Type}.
Context (captureException : Err -> Loader.Task World Err string).
Context (flush : Z -> Loader.Task World Err bool).
Context (origHandler : NextApiRequest -> NextApiResponse -> Loader.Task World Err unit).

#[local] Abbreviation wrapped :=
  (Loader.makeWrappedRequestHandler captureException flush origHandler).

(** A handler that returns is passed through; the SDK is not called. *)
Lemma wrapped_handler_returns req res w v w1 :
  origHandler req res w = (Return v, w1) ->
  wrapped req res w = (Return v, w1).
Proof.
  intros H. unfold Loader.makeWrappedRequestHandler, Loader.try_catch. rewrite H. reflexivity.
Qed.

(** What the wrapper does once the handler has thrown. *)
Lemma wrapped_handler_catches req res w err w1 :
  origHandler req res w = (Throw err, w1) ->
  wrapped req res w =
  Loader.task_bind (captureException err)
    (fun _ => Loader.task_bind (flush 2000) (fun _ => Loader.task_throw err)) w1.
Proof.
  intros H. unfold Loader.makeWrappedRequestHandler, Loader.try_catch. rewrite H. reflexivity.
Qed.

(** C6, as amended: when the original handler throws, the wrapper calls
    [captureException] on the error and then [flush(2000)]; if both return
    it rethrows the original error unchanged.  The two calls are not
    guarded: what [captureException] throws, or what the promise of [flush]
    rejects with, reaches the caller in place of the original error. *)
Theorem wrapped_handler_rethrows req res w err w1 :
  origHandler req res w = (Throw err, w1) ->
  (forall id w2 drained w3,
     captureException err w1 = (Return id, w2) ->
     flush 2000 w2 = (Return drained, w3) ->
     Loader.makeWrappedRequestHandler captureException flush origHandler req res w
     = (Throw err, w3)) /\
  (forall e w2,
     captureException err w1 = (Throw e, w2) ->
     Loader.makeWrappedRequestHandler captureException flush origHandler req res w
     = (Throw e, w2)) /\
  (forall id w2 e w3,
     captureException err w1 = (Return id, w2) ->
     flush 2000 w2 = (Throw e, w3) ->
     Loader.makeWrappedRequestHandler captureException flush origHandler req res w
     = (Throw e, w3)).
Proof.
  intros H. rewrite (wrapped_handler_catches _ _ _ _ _ H).
  unfold Loader.task_bind, Loader.task_throw.
  repeat split.
  - intros id w2 drained w3 Hc Hf. rewrite Hc, Hf. reflexivity.
  - intros e w2 Hc. rewrite Hc. reflexivity.
  - intros id w2 e w3 Hc Hf. rewrite Hc, Hf. reflexivity.
Qed.

End WrappingFacts.

(** C6 as stated fails: with a flush whose promise rejects, the caller of
    the wrapped handler does not get the error of the handler. *)
Lemma wrapped_handler_telemetry_error_counterexample :
  Sample.failingHandler "req" "res" [] = (Throw "handler failed", []) /\
  ~ (exists w,
       Loader.makeWrappedRequestHandler Sample.capture Sample.flushRejects
         Sample.failingHandler "req" "res" [] = (Throw "handler failed", w)).
Proof.
  split; [reflexivity|].
  intros [w Hw]. vm_compute in Hw. discriminate Hw.
Qed.

Lemma wrapped_handler_rethrows_witness :
  Sample.failingHandler "req" "res" [] = (Throw "handler failed", []) /\
  Loader.makeWrappedRequestHandler Sample.capture Sample.flushOk
    Sample.failingHandler "req" "res" []
  = (Throw "handler failed", ["captureException handler failed"; "flush"]).
Proof.
  split; [reflexivity|].
  refine (proj1 (wrapped_handler_rethrows Sample.capture Sample.flushOk
    Sample.failingHandler "req" "res" [] "handler failed" [] _)
    "event-id" ["captureException handler failed"] true _ _ _); reflexivity.
Defined.

Section LoadFacts.

Context (compile : string -> string -> Completion JSError Loader.JSValue).
Context (wrappedHandlerSource : string).

(** [getOptions] returns the options of a loader of the list whose path
    names this loader. *)
Lemma getOptions_Some loaders options :
  Loader.getOptions loaders = Some options ->
  exists loader,
    loader ∈ loaders /\
    Loader.options loader = options /\
    JS.includes (Loader.path loader) "nextjs/dist/utils/api-wrapping-loader" = true.
Proof.
  induction loaders as [|loader rest IH]; cbn; [discriminate|].
  destruct (JS.includes (Loader.path loader) _) eqn:Hinc.
  - intros [= <-]. exists loader. split; [left | split; [reflexivity | exact Hinc]].
  - intros H. destruct (IH H) as (l & Hl & Ho & Hi).
    exists l. split; [right; exact Hl | split; assumption].
Qed.

(** C10: when the default export of the compiled module is not a
    function, [load] returns the raw input unchanged and writes one warning
    that names the resource. *)
Theorem load_returns_raw_input this rawInput options origHandler :
  Loader.getOptions (Loader.loaders this) = Some options ->
  compile (JS.replace rawInput "@sentry/nextjs" (Loader.sdkPath options)) "lookIMadeAModule"
    = Return origHandler ->
  Loader.typeof origHandler <> "function" ->
  Loader.load compile wrappedHandlerSource this rawInput =
  ([ "[Sentry] Could not wrap " +:+ Loader.resource this +:+
     " for error handling. Default export is not a function." ],
   Return rawInput).
Proof.
  intros Hopt Hcompile Htype.
  unfold Loader.load. rewrite Hopt, Hcompile.
  destruct origHandler; try reflexivity.
  exfalso. apply Htype. reflexivity.
Qed.

End LoadFacts.

Lemma load_returns_raw_input_witness :
  Loader.load Sample.compileToObject "async (req, res) => { }" Sample.context
    "import { withSentry } from '@sentry/nextjs'; export default {};"
  = ([ "[Sentry] Could not wrap pages/api/hello.js for error handling. Default export is not a function." ],
     Return "import { withSentry } from '@sentry/nextjs'; export default {};").
Proof.
  apply (load_returns_raw_input Sample.compileToObject "async (req, res) => { }"
           Sample.context _
           {| Loader.sdkPath := "/app/node_modules/@sentry/nextjs" |}
           (Loader.VObject "{}")).
  - reflexivity.
  - reflexivity.
  - discriminate.
Defined.

(** ** The hub layer stack *)

Section LayerStackFacts.

#[local] Open Scope list_scope.

Context {Client User Breadcrumb Span Extra EventProcessor : Type}.

#[local] Abbreviation Layer := (Hub.Layer Client User Breadcrumb Span Extra EventProcessor).
#[local] Abbreviation HubOp := (Hub.HubOp Client User Breadcrumb Extra).

Lemma scopesPresent_removelast (stack : list Layer) :
  Hub.scopesPresent stack -> Hub.scopesPresent (removelast stack).
Proof.
  unfold Hub.scopesPresent.
  destruct stack as [|l stack _] using rev_ind; [trivial|].
  rewrite removelast_last. intros H. apply Forall_app in H. tauto.
Qed.

Lemma scopesPresent_pushScope (stack : list Layer) :
  Hub.scopesPresent stack -> Hub.scopesPresent (fst (Hub.pushScope _ _ _ _ _ _ stack)).
Proof.
  unfold Hub.scopesPresent, Hub.pushScope. cbn. intros H.
  apply Forall_app. split; [exact H|].
  constructor; [cbn; eauto | constructor].
Qed.

Lemma scopesPresent_popScope (stack : list Layer) :
  Hub.scopesPresent stack -> Hub.scopesPresent (fst (Hub.popScope _ _ _ _ _ _ stack)).
Proof.
  unfold Hub.popScope. intros H.
  destruct (decide (1 < length stack)); cbn; [apply scopesPresent_removelast|]; exact H.
Qed.

Lemma scopesPresent_updateTop (f : Layer -> Layer) (stack : list Layer) :
  (forall l, is_Some (Hub.scope l) -> is_Some (Hub.scope (f l))) ->
  Hub.scopesPresent stack -> Hub.scopesPresent (Hub.updateTop _ _ _ _ _ _ f stack).
Proof.
  unfold Hub.scopesPresent, Hub.updateTop. intros Hf.
  destruct stack as [|l stack _] using rev_ind; [trivial|].
  intros H. apply Forall_app in H as [Hstack Hl].
  destruct (stack ++ [l]) eqn:E; [destruct stack; discriminate|]. rewrite <- E.
  rewrite removelast_last, last_snoc. cbn.
  apply Forall_app. split; [exact Hstack|].
  constructor; [|constructor]. apply Hf. inversion Hl; assumption.
Qed.

Lemma scopesPresent_updateScope f (stack : list Layer) :
  Hub.scopesPresent stack -> Hub.scopesPresent (Hub.updateScope _ _ _ _ _ _ f stack).
Proof.
  apply scopesPresent_updateTop. intros l [s Hs]. cbn. rewrite Hs. cbn. eauto.
Qed.

Lemma scopesPresent_bindClient c (stack : list Layer) :
  Hub.scopesPresent stack -> Hub.scopesPresent (Hub.bindClient _ _ _ _ _ _ c stack).
Proof.
  apply scopesPresent_updateTop. intros l Hl. exact Hl.
Qed.

(** Every operation keeps the scopes in place; the body of [withScope] is
    handled by an inner induction on the script. *)
Lemma scopesPresent_execOp :
  forall (op : HubOp) (stack : list Layer),
    Hub.scopesPresent stack -> Hub.scopesPresent (Hub.execOp op stack).
Proof.
  fix IH 1. intros op stack H. destruct op as [| |c|k v|k v|u|n b|body].
  - apply scopesPresent_pushScope, H.
  - apply scopesPresent_popScope, H.
  - apply scopesPresent_bindClient, H.
  - apply (scopesPresent_updateScope _ _ H).
  - apply (scopesPresent_updateScope _ _ H).
  - apply (scopesPresent_updateScope _ _ H).
  - apply (scopesPresent_updateScope _ _ H).
  - change (Hub.scopesPresent
              (fst (Hub.popScope _ _ _ _ _ _
                 (fold_left (fun st o => Hub.execOp o st) body
                    (fst (Hub.pushScope _ _ _ _ _ _ stack)))))).
    apply scopesPresent_popScope.
    pose proof (scopesPresent_pushScope stack H) as Hp.
    revert Hp. generalize (fst (Hub.pushScope _ _ _ _ _ _ stack)).
    induction body as [|o body IHbody]; intros st Hst; [exact Hst|].
    apply IHbody, IH, Hst.
Qed.

Lemma scopesPresent_execOps (ops : list HubOp) (stack : list Layer) :
  Hub.scopesPresent stack -> Hub.scopesPresent (Hub.execOps ops stack).
Proof.
  unfold Hub.execOps. revert stack.
  induction ops as [|o ops IH]; intros stack H; cbn; [exact H|].
  apply IH, scopesPresent_execOp, H.
Qed.

(** C7: a fresh stack is one layer with an empty Scope, and after any
    script of hub and scope operations every layer of the stack has a
    scope. *)
Theorem layer_scope_never_null (c : option Client) (ops : list HubOp) :
  (Hub.freshStack c : list Layer) = [ Hub.mkLayer c (Some Hub.emptyScope) ] /\
  Forall (fun l : Layer => exists s, Hub.scope l = Some s)
    (Hub.execOps ops (Hub.freshStack c)).
Proof.
  split; [reflexivity|].
  apply (scopesPresent_execOps ops (Hub.freshStack c)).
  constructor; [cbn; eauto | constructor].
Qed.

End LayerStackFacts.

(** ** The webpack configuration *)

Section InjectSentryFacts.

(** The injection point is never the key that is deleted. *)
Lemma injectionPoint_not_main_js isServer : Config.injectionPoint isServer <> "main.js".
Proof. destruct isServer; discriminate. Qed.

(** The entry object once the injection point is rewritten and ['main.js']
    is dropped. *)
Lemma injected_lookup (o : gmap string Config.EntryValue) isServer v' :
  let updated := <[Config.injectionPoint isServer := v']> o in
  let result :=
    if decide (is_Some (updated !! "main.js")) then delete "main.js" updated else updated in
  result !! Config.injectionPoint isServer = Some v' /\
  (forall k, k <> Config.injectionPoint isServer -> k <> "main.js" -> result !! k = o !! k) /\
  result !! "main.js" = None.
Proof.
  intros updated result. subst result.
  pose proof (injectionPoint_not_main_js isServer) as Hne.
  destruct (decide (is_Some (updated !! "main.js"))) as [Hin|Hout]; subst updated.
  - repeat split.
    + rewrite lookup_delete_ne by congruence. apply lookup_insert_eq.
    + intros k Hk Hmain.
      rewrite lookup_delete_ne by congruence. apply lookup_insert_ne. congruence.
    + apply lookup_delete_eq.
  - repeat split.
    + apply lookup_insert_eq.
    + intros k Hk Hmain. apply lookup_insert_ne. congruence.
    + apply eq_None_not_Some, Hout.
Qed.

(** C8: for an entry property that is an object, or a function whose
    promise resolves to one, and whose value at the injection point
    (['pages/_document'] for the server, ['main'] for the client) is a
    string, an array, or an object with a string or an array under [import],
    [injectSentry] resolves to an entry object that lists the Sentry config
    file (['./sentry.server.config.js'] for the server,
    ['./sentry.client.config.js'] for the client) first and then the
    original entry points in their order, keeps the other settings of an
    entry point object and every other key, and has no ['main.js'] key. *)
Theorem injectSentry_prepends_config origEntryProperty (isServer : bool)
    (o : gmap string Config.EntryValue) v points :
  let key := if isServer then "pages/_document" else "main" in
  let file :=
    if isServer then "./sentry.server.config.js" else "./sentry.client.config.js" in
  (origEntryProperty = Config.EPObject o \/
   exists f, origEntryProperty = Config.EPFunction f /\ f () = Return o) ->
  o !! key = Some v ->
  Config.entryPoints v = Some points ->
  exists result v',
    snd (Config.injectSentry origEntryProperty isServer) = Return result /\
    result !! key = Some v' /\
    Config.entryPoints v' = Some (file :: points) /\
    Config.otherSettings v' = Config.otherSettings v /\
    (forall k, k <> key -> k <> "main.js" -> result !! k = o !! k) /\
    result !! "main.js" = None.
Proof.
  intros key file Horig Hv Hpoints.
  change key with (Config.injectionPoint isServer) in *.
  change file with (Config.injectee isServer) in *.
  clear key file.
  assert (exists v',
    snd (Config.injectSentry origEntryProperty isServer) =
      Return (let updated := <[Config.injectionPoint isServer := v']> o in
              if decide (is_Some (updated !! "main.js"))
              then delete "main.js" updated else updated) /\
    Config.entryPoints v' = Some (Config.injectee isServer :: points) /\
    Config.otherSettings v' = Config.otherSettings v) as (v' & Hrun & Hpts & Hother).
  { unfold Config.injectSentry.
    assert (match origEntryProperty with
            | Config.EPObject o0 => Return o0
            | Config.EPFunction f => f ()
            | Config.EPPromise _ => Return ∅
            end = (Return o : Completion JSError _)) as ->.
    { destruct Horig as [-> | (f & -> & Hf)]; [reflexivity | exact Hf]. }
    rewrite Hv.
    destruct v as [s | l | obj]; cbn in Hpoints.
    - injection Hpoints as <-. eexists. split; [reflexivity|]. split; reflexivity.
    - injection Hpoints as <-. eexists. split; [reflexivity|]. split; reflexivity.
    - destruct (obj !! "import") as [[s | l | d l | d]|] eqn:Himport; try discriminate;
        injection Hpoints as <-; eexists; (split; [reflexivity|]); cbn;
        rewrite lookup_insert_eq, delete_insert_eq; split; reflexivity. }
  destruct (injected_lookup o isServer v') as (Hip & Hkeys & Hmain).
  eexists _, v'. split; [exact Hrun|]. cbn. repeat split; assumption.
Qed.

End InjectSentryFacts.

Lemma injectSentry_prepends_config_witness :
  (Sample.serverEntry !! "pages/_document"
     = Some (Config.EArray ["next/dist/pages/_document"]) /\
   exists result v',
     snd (Config.injectSentry (Config.EPFunction (fun _ => Return Sample.serverEntry)) true)
       = Return result /\
     result !! "pages/_document" = Some v' /\
     Config.entryPoints v' = Some ["./sentry.server.config.js"; "next/dist/pages/_document"] /\
     Config.otherSettings v' = ∅ /\
     (forall k, k <> "pages/_document" -> k <> "main.js" ->
                result !! k = Sample.serverEntry !! k) /\
     result !! "main.js" = None) /\
  (Fixture.clientEntry !! "main" = Some (Config.EString "./client/index.js") /\
   exists result v',
     snd (Config.injectSentry (Config.EPObject Fixture.clientEntry) false) = Return result /\
     result !! "main" = Some v' /\
     Config.entryPoints v' = Some ["./sentry.client.config.js"; "./client/index.js"] /\
     Config.otherSettings v' = ∅ /\
     (forall k, k <> "main" -> k <> "main.js" -> result !! k = Fixture.clientEntry !! k) /\
     result !! "main.js" = None).
Proof.
  split; (split; [reflexivity|]).
  - apply (injectSentry_prepends_config
             (Config.EPFunction (fun _ => Return Sample.serverEntry)) true
             Sample.serverEntry (Config.EArray ["next/dist/pages/_document"])
             ["next/dist/pages/_document"]).
    + right. eexists. split; reflexivity.
    + reflexivity.
    + reflexivity.
  - apply (injectSentry_prepends_config (Config.EPObject Fixture.clientEntry) false
             Fixture.clientEntry (Config.EString "./client/index.js")
             ["./client/index.js"]).
    + left. reflexivity.
    + reflexivity.
    + reflexivity.
Defined.

Section WithSentryConfigFacts.

(** The decimal notation of a number holds digits only. *)
Lemma isDigits_pretty_N_go (x : N) (s : string) :
  JS.isDigits s = true -> JS.isDigits (pretty_N_go x s) = true.
Proof.
  revert s. induction (N.lt_wf_0 x) as [x _ IH]. intros s Hs.
  destruct (decide (0 < x)%N) as [Hpos|Hzero].
  - rewrite pretty_N_go_step by exact Hpos.
    apply IH; [apply N.div_lt; lia|].
    cbn. rewrite Hs, andb_true_r.
    unfold pretty_N_char. repeat case_match; reflexivity.
  - replace x with 0%N by lia. rewrite pretty_N_go_0. exact Hs.
Qed.

Lemma isDigits_pretty_nat (n : nat) : JS.isDigits (pretty n) = true.
Proof.
  unfold pretty, pretty_nat, pretty, pretty_N.
  case_decide; [reflexivity|]. apply isDigits_pretty_N_go. reflexivity.
Qed.

(** A key that is not a digit string, not [length] and not inherited is
    in no array, whatever the length. *)
Lemma inArray_other_key (key : string) (len : nat) :
  JS.isDigits key = false ->
  String.eqb key "length" = false ->
  bool_decide (key ∈ JS.inheritedArrayProperties) = false ->
  JS.inArray key len = false.
Proof.
  intros Hdigits Hlength Hinherited. unfold JS.inArray.
  rewrite Hlength, Hinherited, !orb_false_r.
  apply not_true_is_false. intros Hex.
  apply existsb_exists in Hex as (i & _ & Hi).
  apply String.eqb_eq in Hi. subst key.
  rewrite isDigits_pretty_nat in Hdigits. discriminate.
Qed.

Context (getSentryRelease : option string) (env : gmap string string).

(** The list of "overrides" holds one [false] for each of the ten default
    keys and for ['dryrun'], whatever options are provided. *)
Lemma webpackPluginOptionOverrides_constant (provided : gmap string Config.OptionValue) :
  Config.webpackPluginOptionOverrides getSentryRelease env provided = replicate 11 false.
Proof.
  unfold Config.webpackPluginOptionOverrides. cbn [map fst app Config.defaultWebpackPluginOptions].
  cbn [replicate].
  repeat (apply (f_equal2 cons); [apply inArray_other_key; reflexivity|]).
  reflexivity.
Qed.


End WithSentryConfigFacts.

(** ** The definitions run on concrete inputs *)

(** With a proxy in the options the client is a proxy agent for it. *)
Example construct_with_proxy :
  Sample.construct (Some Sample.proxy) = Return Sample.proxiedTransport.
Proof. reflexivity. Qed.

(** An empty proxy string is falsy: the plain agent is built. *)
Example construct_with_empty_proxy :
  Sample.construct (Some "") =
  Return (Transport.mkTransport (Some "") "https://key@sentry.example/1"
            (Some Transport.https)
            (Some (Transport.HttpsAgent Transport.defaultAgentOptions))).
Proof. reflexivity. Qed.

(** Only the first occurrence of the pattern is replaced, and [$&] in the
    replacement stands for the match. *)
Example replace_first_occurrence :
  JS.replace "from '@sentry/nextjs' and '@sentry/nextjs'" "@sentry/nextjs" "/sdk"
  = "from '/sdk' and '@sentry/nextjs'".
Proof. reflexivity. Qed.

Example replace_dollar_patterns : JS.replace "a-b-c" "b" "[$&|$$|$1]" = "a-[b|$|$1]-c".
Proof. reflexivity. Qed.

(** A default export that is a function is replaced by the wrapper, and
    its own source is appended under the name [origHandler]. *)
Example load_wraps_function :
  Loader.load (fun _ _ => Return (Loader.VFunction "(req, res) => res.end()"))
    "async (req, res) => { /* wrapper */ }" Sample.context
    "export default (req, res) => res.end()"
  = ([], Return ("export default async (req, res) => { /* wrapper */ }"
                 +:+ JS.newline +:+ JS.newline
                 +:+ "const origHandler = (req, res) => res.end()")).
Proof. reflexivity. Qed.

(** Without this loader among the loaders, reading [options.sdkPath] throws. *)
Example load_without_options :
  snd (Loader.load Sample.compileToObject "w"
         {| Loader.resource := "pages/api/hello.js"; Loader.loaders := [] |} "code")
  = Throw (TypeError "Cannot read property 'sdkPath' of undefined").
Proof. reflexivity. Qed.

(** The client entry as a string, and an entry point object that keeps
    its other settings. *)
Example injectSentry_client_string :
  snd (Config.injectSentry (Config.EPObject {[ "main" := Config.EString "./client.js" ]}) false)
  = Return {[ "main" := Config.EArray ["./sentry.client.config.js"; "./client.js"] ]}.
Proof. vm_compute. reflexivity. Qed.

Example injectSentry_entry_point_object :
  snd (Config.injectSentry
         (Config.EPObject
            {[ "main" := Config.EObject {[ "import" := Config.PString "./client.js";
                                           "dependOn" := Config.POther "shared" ]} ]})
         false)
  = Return {[ "main" := Config.EObject
                {[ "import" := Config.PArray ["./sentry.client.config.js"; "./client.js"];
                   "dependOn" := Config.POther "shared" ]} ]}.
Proof. vm_compute. reflexivity. Qed.

(** Without a value at the injection point the promise rejects. *)
Example injectSentry_missing_injection_point :
  snd (Config.injectSentry (Config.EPObject {[ "other" := Config.EString "./o.js" ]}) true)
  = Throw (TypeError "Cannot read property 'import' of undefined").
Proof. reflexivity. Qed.

(** [withScope] leaves the depth as it was, and the root layer is never
    popped. *)
Example withScope_restores_depth :
  length (Hub.execOps
            [ Hub.OpWithScope [ Hub.OpSetTag "env" "prod"; Hub.OpPushScope ];
              Hub.OpPopScope; Hub.OpPopScope ]
            (Hub.freshStack (Client := unit) (User := unit) (Breadcrumb := unit)
               (Span := unit) (Extra := unit) (EventProcessor := unit) None))
  = 1.
Proof. reflexivity. Qed.

(** The warning text, the same on every call. *)
Example withSentryConfig_warning_text :
  fst (Config.withSentryConfig None ∅ None None)
  = [ "[next-plugin-sentry] You are overriding the following automatically-set SentryWebpackPlugin config options:"
      +:+ JS.newline +:+ JS.tab
      +:+ "false,false,false,false,false,false,false,false,false,false,false,"
      +:+ JS.newline
      +:+ "which has the possibility of breaking source map upload and application. This is only a good idea if you know what you're doing." ].
Proof. vm_compute. reflexivity. Qed.

(** * Further properties of the code *)

(** ** Which requests are traced (instrumentServer.ts) *)

Section TracingFacts.

Context {Headers Cookies : Type}.
Implicit Types (req : Instrument.NextRequest Headers Cookies).
Implicit Types (publicRoute : Instrument.Route Headers Cookies).

(** X1: requests of Next.js for its bundles and requests for the old static
    folder are not traced, and the route for the public folder is not asked
    about them: the answer is the same for a route that throws. *)
Theorem framework_requests_not_traced req publicRoute :
  String.prefix "/_next/" (Instrument.url req) = true \/
  String.prefix "/static/" (Instrument.url req) = true ->
  Instrument._shouldTraceRequest req publicRoute = Return false.
Proof.
  intros H. unfold Instrument._shouldTraceRequest.
  destruct (String.prefix "/_next/" (Instrument.url req)); [reflexivity|].
  destruct H as [H|H]; [discriminate|]. rewrite H. reflexivity.
Qed.

(** X2: the request for the root is traced whatever the public route does. *)
Theorem root_request_traced req publicRoute :
  Instrument.url req = "/" ->
  Instrument._shouldTraceRequest req publicRoute = Return true.
Proof.
  intros H. unfold Instrument._shouldTraceRequest, Instrument._isStaticResourceRequest.
  rewrite H. reflexivity.
Qed.

(** X3: a request is found to be one for a static resource exactly when it is
    not the root, the matcher of the public route gives a truthy match, and
    the file matcher finishes on that match. *)
Theorem static_resource_iff req publicRoute :
  Instrument._isStaticResourceRequest req publicRoute = Return true <->
  Instrument.url req <> "/" /\
  exists regexMatch,
    Instrument.route_match publicRoute (Instrument.url req) = Return regexMatch /\
    Instrument.falsy regexMatch = false /\
    Instrument.route_fn publicRoute req regexMatch = Return true.
Proof.
  unfold Instrument._isStaticResourceRequest, mbind, completion_mbind, completion_bind.
  destruct (String.eqb_spec (Instrument.url req) "/") as [Hroot|Hroot].
  - split; [discriminate | intros [Hne _]; contradiction].
  - destruct (Instrument.route_match publicRoute (Instrument.url req)) as [m|e].
    + destruct (Instrument.falsy m) eqn:Hfalsy.
      * split; [discriminate|].
        intros (_ & m' & [= <-] & Hm' & _). congruence.
      * destruct (Instrument.route_fn publicRoute req m) as [finished|e] eqn:Hfn.
        -- split.
           ++ intros [= ->]. split; [exact Hroot|]. exists m. auto.
           ++ intros (_ & m' & [= <-] & _ & Hfn'). congruence.
        -- split; [discriminate|].
           intros (_ & m' & [= <-] & _ & Hfn'). congruence.
    + split; [discriminate|]. intros (_ & m' & Hm' & _). discriminate.
Qed.

(** X4: a request is traced exactly when its url starts with neither
    [/_next/] nor [/static/] and it is found not to be a request for a
    static resource. *)
Theorem traced_iff_not_static req publicRoute :
  Instrument._shouldTraceRequest req publicRoute = Return true <->
  String.prefix "/_next/" (Instrument.url req) = false /\
  String.prefix "/static/" (Instrument.url req) = false /\
  Instrument._isStaticResourceRequest req publicRoute = Return false.
Proof.
  unfold Instrument._shouldTraceRequest, mbind, completion_mbind, completion_bind.
  destruct (String.prefix "/_next/" (Instrument.url req)).
  { split; [discriminate | intros [? _]; discriminate]. }
  destruct (String.prefix "/static/" (Instrument.url req)).
  { split; [discriminate | intros (_ & ? & _); discriminate]. }
  destruct (Instrument._isStaticResourceRequest req publicRoute) as [[|]|e].
  - split; [discriminate | intros (_ & _ & ?); discriminate].
  - split; auto.
  - split; [discriminate | intros (_ & _ & ?); discriminate].
Qed.

(** X5: what the matcher of the public route throws is not caught: for a
    request that is not filtered by its prefix and is not the root, the
    decision fails with it. *)
Theorem route_failure_rejects req publicRoute e :
  String.prefix "/_next/" (Instrument.url req) = false ->
  String.prefix "/static/" (Instrument.url req) = false ->
  Instrument.url req <> "/" ->
  Instrument.route_match publicRoute (Instrument.url req) = Throw e ->
  Instrument._shouldTraceRequest req publicRoute = Throw e.
Proof.
  intros Hnext Hstatic Hroot Hmatch.
  unfold Instrument._shouldTraceRequest, Instrument._isStaticResourceRequest.
  rewrite Hnext, Hstatic.
  destruct (String.eqb_spec (Instrument.url req) "/") as [|_]; [contradiction|].
  rewrite Hmatch. reflexivity.
Qed.

End TracingFacts.

Lemma framework_requests_not_traced_witness :
  Instrument._shouldTraceRequest (Fixture.request "/_next/static/chunks/main.js")
    Fixture.throwingRoute = Return false.
Proof.
  apply framework_requests_not_traced. left. reflexivity.
Defined.

Lemma root_request_traced_witness :
  Instrument._shouldTraceRequest (Fixture.request "/") Fixture.throwingRoute = Return true.
Proof.
  apply root_request_traced. reflexivity.
Defined.

Lemma route_failure_rejects_witness :
  Instrument._shouldTraceRequest (Fixture.request "/api/hello") Fixture.throwingRoute
  = Throw (ThrownValue "matcher failed").
Proof.
  apply route_failure_rejects; [reflexivity | reflexivity | discriminate | reflexivity].
Defined.

(** A file of the public folder is not traced, a page is. *)
Example public_file_not_traced :
  Instrument._shouldTraceRequest (Fixture.request "/images/logo.png") Fixture.imagesRoute
  = Return false.
Proof. reflexivity. Qed.

Example page_traced :
  Instrument._shouldTraceRequest (Fixture.request "/users/42") Fixture.imagesRoute
  = Return true.
Proof. reflexivity. Qed.

(** ** The wrapped renderer and the handler getter (instrumentServer.ts) *)

Section RendererFacts.

Context {Headers Cookies Transaction ServerResponse : Type}.
Context (origRender : Instrument.Renderer Headers Cookies Transaction ServerResponse).

(** The wrapped renderer calls the original one with the same arguments
    and a response on which only [parameterizedPath] and [params] are
    written: the transaction, the request data and the response itself stay
    as they were. *)
Theorem wrapped_renderer_frame this req res pathname options :
  exists res',
    Instrument.makeWrappedRenderer origRender this req res pathname options
      = origRender this req res' pathname options /\
    Instrument.parameterizedPath (Instrument.__sentry__ res') = Some pathname /\
    Instrument.params (Instrument.__sentry__ res') = Some (Instrument.query options) /\
    Instrument.transaction (Instrument.__sentry__ res')
      = Instrument.transaction (Instrument.__sentry__ res) /\
    Instrument.request (Instrument.__sentry__ res')
      = Instrument.request (Instrument.__sentry__ res) /\
    Instrument.response res' = Instrument.response res.
Proof.
  eexists. split; [reflexivity|]. cbn. repeat split.
Qed.

(** Wrapping a renderer that is already wrapped changes nothing: the two
    fields are written twice with the same values. *)
Theorem wrapped_renderer_idempotent this req res pathname options :
  Instrument.makeWrappedRenderer (Instrument.makeWrappedRenderer origRender)
    this req res pathname options
  = Instrument.makeWrappedRenderer origRender this req res pathname options.
Proof. reflexivity. Qed.

End RendererFacts.

Section HandlerGetterFacts.

Context {Outside Prototype ReqHandler : Type}.
Context (fill :
  Prototype -> string -> Instrument.Wrapper -> Instrument.Closure -> Outside ->
  Completion JSError unit * Outside).
Context (getPrototypeOf : Instrument.Server -> Prototype).
Context (setProjectRootEnv : string -> Outside -> Outside).
Context (createNextServerPrototype : Outside -> Completion JSError Prototype * Outside).
Context (origHandlerGetter : Instrument.HandlerGetter Outside ReqHandler).

(** X7: the first call of the wrapped getter patches the two methods of the
    prototype of the server, records the server and its directory in the
    closure and then calls the original getter; every later call only calls
    the original getter: nothing is patched again and the closure keeps the
    first server, also when the original getter failed the first time. *)
Theorem wrapped_getter_patches_once this closure outside outside1 outside2 :
  Instrument.wrappingComplete closure = false ->
  let recorded :=
    Instrument.mkClosure (Some (Instrument.server this))
      (Some (Instrument.dir (Instrument.server this))) false in
  let completed :=
    Instrument.mkClosure (Some (Instrument.server this))
      (Some (Instrument.dir (Instrument.server this))) true in
  fill (getPrototypeOf (Instrument.server this)) "renderToHTMLWithComponents"
    Instrument.WrapRenderer recorded
    (setProjectRootEnv (Instrument.dir (Instrument.server this)) outside)
    = (Return (), outside1) ->
  fill (getPrototypeOf (Instrument.server this)) "handleRequest"
    Instrument.WrapReqHandler recorded outside1
    = (Return (), outside2) ->
  Instrument.makeWrappedHandlerGetter fill getPrototypeOf setProjectRootEnv
    origHandlerGetter this closure outside
    = (fst (origHandlerGetter this outside2),
       (completed, snd (origHandlerGetter this outside2))) /\
  forall this' outside',
    Instrument.makeWrappedHandlerGetter fill getPrototypeOf setProjectRootEnv
      origHandlerGetter this' completed outside'
    = (fst (origHandlerGetter this' outside'),
       (completed, snd (origHandlerGetter this' outside'))).
Proof.
  intros Hfresh recorded completed Hrender Hhandle. split.
  - unfold Instrument.makeWrappedHandlerGetter. rewrite Hfresh. cbn.
    fold recorded. rewrite Hrender, Hhandle.
    destruct (origHandlerGetter this outside2). reflexivity.
  - intros this' outside'. unfold Instrument.makeWrappedHandlerGetter. cbn.
    destruct (origHandlerGetter this' outside'). reflexivity.
Qed.

(** X8: [instrumentServerForTracing] leaves the closure as it is and returns
    the project root that the closure holds when it is called: before the
    wrapped getter has run, that is [undefined], not a directory. *)
Theorem instrumentServerForTracing_returns_recorded_root closure outside
    result closure' outside' :
  Instrument.instrumentServerForTracing fill createNextServerPrototype closure outside
    = (Return result, (closure', outside')) ->
  closure' = closure /\
  result = Instrument.projectRootDir closure /\
  (closure = Instrument.emptyClosure -> result = None).
Proof.
  unfold Instrument.instrumentServerForTracing.
  destruct (createNextServerPrototype outside) as [[proto|e] out1]; [|discriminate].
  destruct (fill proto _ _ closure out1) as [[[]|e] out2]; [|discriminate].
  intros [= <- <- <-]. repeat split. intros ->. reflexivity.
Qed.

End HandlerGetterFacts.

Lemma wrapped_getter_patches_once_witness :
  Fixture.wrappedGetter Fixture.nextServer Instrument.emptyClosure []
  = (Return "handler",
     (Instrument.mkClosure (Some (Instrument.server Fixture.nextServer)) (Some "/app") true,
      [ "__SENTRY_PROJECT_ROOT=/app";
        "fill Server.prototype.renderToHTMLWithComponents";
        "fill Server.prototype.handleRequest";
        "getServerRequestHandler" ])) /\
  Fixture.wrappedGetter Fixture.nextServer
    (Instrument.mkClosure (Some (Instrument.server Fixture.nextServer)) (Some "/app") true)
    [ "later" ]
  = (Return "handler",
     (Instrument.mkClosure (Some (Instrument.server Fixture.nextServer)) (Some "/app") true,
      [ "later"; "getServerRequestHandler" ])).
Proof.
  pose proof (wrapped_getter_patches_once Fixture.logFill (fun _ => "Server.prototype")
    (fun dir log => (log ++ ["__SENTRY_PROJECT_ROOT=" +:+ dir])%list) Fixture.logGetter
    Fixture.nextServer Instrument.emptyClosure []
    [ "__SENTRY_PROJECT_ROOT=/app"; "fill Server.prototype.renderToHTMLWithComponents" ]
    [ "__SENTRY_PROJECT_ROOT=/app"; "fill Server.prototype.renderToHTMLWithComponents";
      "fill Server.prototype.handleRequest" ]
    eq_refl eq_refl eq_refl) as [Hfirst Hlater].
  split; [exact Hfirst | exact (Hlater Fixture.nextServer ["later"])].
Defined.

Lemma instrumentServerForTracing_returns_recorded_root_witness :
  Instrument.instrumentServerForTracing Fixture.logFill
    (fun log => (Return "NextServer.prototype", log)) Instrument.emptyClosure []
  = (Return None,
     (Instrument.emptyClosure, ["fill NextServer.prototype.getServerRequestHandler"])) /\
  (None : option string) = Instrument.projectRootDir Instrument.emptyClosure.
Proof.
  split; [reflexivity|].
  refine (proj1 (proj2 (instrumentServerForTracing_returns_recorded_root Fixture.logFill
    (fun log => (Return "NextServer.prototype", log)) Instrument.emptyClosure []
    None Instrument.emptyClosure ["fill NextServer.prototype.getServerRequestHandler"] _))).
  reflexivity.
Defined.

(** ** Strings: what [replace] does to a match *)

Section StringFacts.

Lemma append_cons (c : ascii) (s t : string) : String c s +:+ t = String c (s +:+ t).
Proof. reflexivity. Qed.

Lemma append_assoc (s t u : string) : (s +:+ t) +:+ u = s +:+ t +:+ u.
Proof.
  induction s as [|c s IH]; [reflexivity|].
  rewrite !append_cons, IH. reflexivity.
Qed.

Lemma substring_all (s : string) : String.substring 0 (String.length s) s = s.
Proof. induction s as [|c s IH]; cbn; [reflexivity | rewrite IH; reflexivity]. Qed.

(** A string is its first [n] characters followed by the rest. *)
Lemma substring_split (s : string) (n : nat) :
  String.substring 0 n s +:+ String.substring n (String.length s - n) s = s.
Proof.
  revert n. induction s as [|c s IH]; intros [|n]; cbn; try reflexivity.
  - rewrite substring_all. reflexivity.
  - rewrite append_cons, IH. reflexivity.
Qed.

Lemma substring_split_from (s : string) (i k : nat) :
  String.substring i k s +:+ String.substring (i + k) (String.length s - (i + k)) s
  = String.substring i (String.length s - i) s.
Proof.
  revert i. induction s as [|c s IH]; intros [|i].
  - destruct k; reflexivity.
  - destruct k; reflexivity.
  - rewrite Nat.add_0_l, Nat.sub_0_r, substring_all. apply substring_split.
  - cbn. apply IH.
Qed.

(** The first occurrence of a pattern lies inside the string. *)
Lemma index_bound (pat s : string) (i : nat) :
  String.index 0 pat s = Some i -> i <= String.length s.
Proof.
  revert i. induction s as [|c s IH]; intros i; cbn [String.index String.length].
  - destruct pat; [intros [= <-]; lia | discriminate].
  - destruct (String.prefix pat (String c s)); [intros [= <-]; lia|].
    destruct (String.index 0 pat s) as [n|]; [|discriminate].
    intros [= <-]. specialize (IH n eq_refl). lia.
Qed.

Lemma substring_length_le (s : string) (n : nat) :
  n <= String.length s -> String.length (String.substring 0 n s) = n.
Proof.
  revert n. induction s as [|c s IH]; intros [|n]; cbn; try lia.
  intros H. rewrite IH by lia. reflexivity.
Qed.

(** A string cut at the first occurrence of a pattern. *)
Lemma index_split (pat s : string) (i : nat) :
  String.index 0 pat s = Some i ->
  s = String.substring 0 i s +:+ pat +:+
      String.substring (i + String.length pat) (String.length s - (i + String.length pat)) s.
Proof.
  intros H. pose proof (String.index_correct1 _ _ _ _ H) as Hpat.
  rewrite <- Hpat at 1.
  rewrite substring_split_from, substring_split. reflexivity.
Qed.

(** A replacement text without a dollar sign is inserted as it is. *)
Lemma expandReplacement_dollarFree (repl matched before after : string) :
  Notions.dollarFree repl = true ->
  JS.expandReplacement repl matched before after = repl.
Proof.
  induction repl as [|c repl IH]; cbn; [reflexivity|].
  intros H. apply andb_true_iff in H as [Hc Hrest].
  apply negb_true_iff in Hc. rewrite Hc, IH by exact Hrest. reflexivity.
Qed.

Lemma replace_first_match (s pat repl : string) (i : nat) :
  String.index 0 pat s = Some i ->
  Notions.dollarFree repl = true ->
  exists before after,
    s = before +:+ pat +:+ after /\
    String.length before = i /\
    JS.replace s pat repl = before +:+ repl +:+ after.
Proof.
  intros Hindex Hrepl.
  exists (String.substring 0 i s),
    (String.substring (i + String.length pat)
       (String.length s - (i + String.length pat)) s).
  split; [apply index_split, Hindex|].
  split; [apply substring_length_le, (index_bound pat), Hindex|].
  unfold JS.replace. rewrite Hindex, expandReplacement_dollarFree by exact Hrepl.
  reflexivity.
Qed.

Lemma replace_no_match (s pat repl : string) :
  String.index 0 pat s = None -> JS.replace s pat repl = s.
Proof. intros H. unfold JS.replace. rewrite H. reflexivity. Qed.

End StringFacts.

(** ** The loader: options, failures and the substitution of the handler *)

(** X13: [getOptions] answers with the options of the first loader whose path
    names this loader, and with [undefined] when there is none. *)
Theorem getOptions_first_match (loaders : list Loader.Loader) :
  Loader.getOptions loaders
  = Loader.options <$> head (List.filter Notions.isThisLoader loaders).
Proof.
  induction loaders as [|loader rest IH]; [reflexivity|].
  cbn. unfold Notions.isThisLoader at 1.
  destruct (JS.includes (Loader.path loader) _); [reflexivity | exact IH].
Qed.

Section LoadFurtherFacts.

Context (compile : string -> string -> Completion JSError Loader.JSValue).
Context (wrappedHandlerSource : string).

#[local] Abbreviation origCodeOf rawInput options :=
  (JS.replace rawInput "@sentry/nextjs" (Loader.sdkPath options)).

(** X14: [load] fails in two cases only, and writes nothing to the console
    then: without this loader among the loaders it throws a TypeError
    before compiling anything, and what the compilation throws is passed
    on unchanged. *)
Theorem load_failures this rawInput :
  (Loader.getOptions (Loader.loaders this) = None ->
   exists message,
     Loader.load compile wrappedHandlerSource this rawInput = ([], Throw (TypeError message))) /\
  (forall options e,
     Loader.getOptions (Loader.loaders this) = Some options ->
     compile (JS.replace rawInput "@sentry/nextjs" (Loader.sdkPath options))
       "lookIMadeAModule" = Throw e ->
     Loader.load compile wrappedHandlerSource this rawInput = ([], Throw e)) /\
  (forall e,
     snd (Loader.load compile wrappedHandlerSource this rawInput) = Throw e ->
     fst (Loader.load compile wrappedHandlerSource this rawInput) = [] /\
     (Loader.getOptions (Loader.loaders this) = None \/
      exists options,
        Loader.getOptions (Loader.loaders this) = Some options /\
        compile (JS.replace rawInput "@sentry/nextjs" (Loader.sdkPath options))
          "lookIMadeAModule" = Throw e)).
Proof.
  unfold Loader.load.
  destruct (Loader.getOptions (Loader.loaders this)) as [options|].
  - split; [discriminate|]. split.
    + intros options' e [= <-] Hcompile. rewrite Hcompile. reflexivity.
    + intros e.
      destruct (compile (origCodeOf rawInput options) "lookIMadeAModule") as [v|e'] eqn:Hc.
      * destruct v; discriminate.
      * cbn. intros [= <-]. split; [reflexivity|]. right. exists options. auto.
  - split; [intros _; eexists; reflexivity|]. split; [discriminate|].
    intros e _. split; [reflexivity | left; reflexivity].
Qed.

(** X15: when the default export is a function whose source text occurs in the
    code, and the source of the wrapper holds no dollar sign, [load] returns
    the code with the first occurrence of the handler replaced by the
    wrapper, followed by the definition of [origHandler] with the source of
    the handler; nothing is logged. *)
Theorem load_wraps_first_occurrence this rawInput options source i :
  Loader.getOptions (Loader.loaders this) = Some options ->
  compile (JS.replace rawInput "@sentry/nextjs" (Loader.sdkPath options))
    "lookIMadeAModule" = Return (Loader.VFunction source) ->
  String.index 0 source (JS.replace rawInput "@sentry/nextjs" (Loader.sdkPath options))
    = Some i ->
  Notions.dollarFree wrappedHandlerSource = true ->
  exists before after,
    JS.replace rawInput "@sentry/nextjs" (Loader.sdkPath options)
      = before +:+ source +:+ after /\
    String.length before = i /\
    Loader.load compile wrappedHandlerSource this rawInput
    = ([], Return (before +:+ wrappedHandlerSource +:+ after +:+ JS.newline +:+ JS.newline
                   +:+ "const origHandler = " +:+ source)).
Proof.
  intros Hoptions Hcompile Hindex Hwrapper.
  destruct (replace_first_match _ _ _ _ Hindex Hwrapper) as (before & after & Hcode & Hlen & Hrep).
  exists before, after. split; [exact Hcode|]. split; [exact Hlen|].
  unfold Loader.load. rewrite Hoptions, Hcompile, Hrep.
  rewrite !append_assoc. reflexivity.
Qed.

(** X16: when the source text of the handler does not occur in the code, the
    wrapper is not put in: [load] returns the code as compiled, followed by
    the definition of [origHandler], and the handler stays unwrapped. *)
Theorem load_leaves_unmatched_handler this rawInput options source :
  Loader.getOptions (Loader.loaders this) = Some options ->
  compile (JS.replace rawInput "@sentry/nextjs" (Loader.sdkPath options))
    "lookIMadeAModule" = Return (Loader.VFunction source) ->
  String.index 0 source (JS.replace rawInput "@sentry/nextjs" (Loader.sdkPath options))
    = None ->
  Loader.load compile wrappedHandlerSource this rawInput
  = ([], Return (JS.replace rawInput "@sentry/nextjs" (Loader.sdkPath options)
                 +:+ JS.newline +:+ JS.newline +:+ "const origHandler = " +:+ source)).
Proof.
  intros Hoptions Hcompile Hindex.
  unfold Loader.load. rewrite Hoptions, Hcompile, (replace_no_match _ _ _ Hindex).
  reflexivity.
Qed.

End LoadFurtherFacts.

Lemma load_wraps_first_occurrence_witness :
  exists before after,
    "export default (req, res) => res.end()"
      = before +:+ "(req, res) => res.end()" +:+ after /\
    String.length before = 15 /\
    Loader.load Fixture.compileToHandler "async (req, res) => { }" Sample.context
      "export default (req, res) => res.end()"
    = ([], Return (before +:+ "async (req, res) => { }" +:+ after +:+ JS.newline
                   +:+ JS.newline +:+ "const origHandler = " +:+ "(req, res) => res.end()")).
Proof.
  apply (load_wraps_first_occurrence Fixture.compileToHandler "async (req, res) => { }"
           Sample.context "export default (req, res) => res.end()"
           {| Loader.sdkPath := "/app/node_modules/@sentry/nextjs" |}
           "(req, res) => res.end()" 15); reflexivity.
Defined.

Lemma load_leaves_unmatched_handler_witness :
  Loader.load Fixture.compileToHandler "async (req, res) => { }" Sample.context
    "export default function handler(req, res) { res.end() }"
  = ([], Return ("export default function handler(req, res) { res.end() }"
                 +:+ JS.newline +:+ JS.newline +:+ "const origHandler = "
                 +:+ "(req, res) => res.end()")).
Proof.
  apply (load_leaves_unmatched_handler Fixture.compileToHandler "async (req, res) => { }"
           Sample.context "export default function handler(req, res) { res.end() }"
           {| Loader.sdkPath := "/app/node_modules/@sentry/nextjs" |}
           "(req, res) => res.end()"); reflexivity.
Defined.

(** The loader fails without its own entry among the loaders, and passes
    on a failed compilation. *)
Example load_without_this_loader :
  Loader.load Fixture.compileToHandler "w" Fixture.otherContext "code"
  = ([], Throw (TypeError "Cannot read property 'sdkPath' of undefined")).
Proof. reflexivity. Qed.

Example load_compile_failure :
  Loader.load Fixture.compileFails "w" Sample.context "export default"
  = ([], Throw (ThrownValue "SyntaxError")).
Proof. reflexivity. Qed.

Section WrappingFurtherFacts.

Context {World Err NextApiRequest NextApiResponse : Type}.
Context (captureException : Err -> Loader.Task World Err string).
Context (flush : Z -> Loader.Task World Err bool).
Context (origHandler : NextApiRequest -> NextApiResponse -> Loader.Task World Err unit).

(** X17: the wrapper never turns a failure into a success: the wrapped handler
    returns exactly when the original one does, with the same value and the
    same state, so without a call of [captureException] or [flush]. *)
Theorem wrapped_handler_returns_iff req res w v w' :
  Loader.makeWrappedRequestHandler captureException flush origHandler req res w
    = (Return v, w') <->
  origHandler req res w = (Return v, w').
Proof.
  unfold Loader.makeWrappedRequestHandler, Loader.try_catch, Loader.task_bind,
    Loader.task_throw.
  destruct (origHandler req res w) as [[v0|err] w0]; [tauto|].
  destruct (captureException err w0) as [[id|e] w1]; [|split; discriminate].
  destruct (flush 2000 w1) as [[drained|e] w2]; split; discriminate.
Qed.

End WrappingFurtherFacts.

Example wrapped_handler_passes_success :
  Loader.makeWrappedRequestHandler Sample.capture Sample.flushRejects Fixture.okHandler
    "req" "res" []
  = (Return (), ["handled req"]).
Proof. reflexivity. Qed.

(** ** The injection of the config file: when it succeeds and what it keeps *)

Section InjectSentryFurtherFacts.

Implicit Types (o : gmap string Config.EntryValue) (v : Config.EntryValue).

Lemma entryPoints_prependEntry file v points :
  Config.entryPoints v = Some points ->
  Config.entryPoints (Notions.prependEntry file v) = Some (file :: points).
Proof.
  destruct v as [s|l|obj]; cbn.
  - intros [= <-]. reflexivity.
  - intros [= <-]. reflexivity.
  - destruct (obj !! "import") as [[s|l|d l|d]|]; try discriminate;
      intros [= <-]; cbn; rewrite lookup_insert_eq; reflexivity.
Qed.

(** The result of a successful injection, in one formula. *)
Lemma injectSentry_success origEntryProperty isServer o v points :
  Notions.resolvesTo origEntryProperty o ->
  o !! Config.injectionPoint isServer = Some v ->
  Config.entryPoints v = Some points ->
  snd (Config.injectSentry origEntryProperty isServer)
  = Return (delete "main.js"
              (<[Config.injectionPoint isServer :=
                   Notions.prependEntry (Config.injectee isServer) v]> o)).
Proof.
  intros Hres Hv Hpoints. unfold Config.injectSentry.
  assert (match origEntryProperty with
          | Config.EPObject o0 => Return o0
          | Config.EPFunction f => f ()
          | Config.EPPromise _ => Return ∅
          end = (Return o : Completion JSError _)) as ->.
  { destruct Hres as [-> | (f & -> & Hf)]; [reflexivity | exact Hf]. }
  rewrite Hv.
  assert (forall m : gmap string Config.EntryValue,
            (if decide (is_Some (m !! "main.js")) then delete "main.js" m else m)
            = delete "main.js" m) as Hdelete.
  { intros m. case_decide as Hm; [reflexivity|].
    symmetry. apply delete_id, eq_None_not_Some, Hm. }
  destruct v as [s|l|obj]; cbn in Hpoints |- *.
  - rewrite Hdelete. reflexivity.
  - rewrite Hdelete. reflexivity.
  - destruct (obj !! "import") as [[s|l|d l|d]|]; try discriminate;
      cbn; rewrite Hdelete; reflexivity.
Qed.

(** X18: the promise of [injectSentry] resolves exactly for an entry property
    that is, or resolves to, an object whose value at the injection point is
    a string, an array, or an object whose [import] is a string, an array or
    another iterable; in every other case it rejects. *)
Theorem injectSentry_resolves_iff origEntryProperty (isServer : bool) :
  let key := if isServer then "pages/_document" else "main" in
  returns (snd (Config.injectSentry origEntryProperty isServer)) <->
  exists (o : gmap string Config.EntryValue) v entries,
    Notions.resolvesTo origEntryProperty o /\
    o !! key = Some v /\
    Notions.importedEntries v = Some entries.
Proof.
  intros key. change key with (Config.injectionPoint isServer). clear key.
  unfold Config.injectSentry. split.
  - destruct origEntryProperty as [o|f|settled].
    + destruct (o !! Config.injectionPoint isServer) as [[s|l|obj]|] eqn:Hv; cbn;
        [| |destruct (obj !! "import") as [[s|l|d l|d]|] eqn:Himport; cbn|];
        intros H; try contradiction;
        (exists o; eexists _, _; split; [left; reflexivity|]; split; [exact Hv|]);
        cbn; rewrite ?Himport; reflexivity.
    + destruct (f ()) as [o|e] eqn:Hf; [|contradiction].
      destruct (o !! Config.injectionPoint isServer) as [[s|l|obj]|] eqn:Hv; cbn;
        [| |destruct (obj !! "import") as [[s|l|d l|d]|] eqn:Himport; cbn|];
        intros H; try contradiction;
        (exists o; eexists _, _; split; [right; exists f; auto|]; split; [exact Hv|]);
        cbn; rewrite ?Himport; reflexivity.
    + rewrite lookup_empty. contradiction.
  - intros (o & v & entries & Hres & Hv & Hentries).
    assert (match origEntryProperty with
            | Config.EPObject o0 => Return o0
            | Config.EPFunction f => f ()
            | Config.EPPromise _ => Return ∅
            end = (Return o : Completion JSError _)) as ->.
    { destruct Hres as [-> | (f & -> & Hf)]; [reflexivity | exact Hf]. }
    rewrite Hv.
    destruct v as [s|l|obj]; cbn in Hentries |- *; try exact I.
    destruct (obj !! "import") as [[s|l|d l|d]|]; try discriminate; exact I.
Qed.


(** X20: the injection is not idempotent: run again on its own result, it puts
    the config file in front a second time. *)
Theorem injectSentry_twice origEntryProperty isServer o v points :
  Notions.resolvesTo origEntryProperty o ->
  o !! Config.injectionPoint isServer = Some v ->
  Config.entryPoints v = Some points ->
  exists once twice v2,
    snd (Config.injectSentry origEntryProperty isServer) = Return once /\
    snd (Config.injectSentry (Config.EPObject once) isServer) = Return twice /\
    twice !! Config.injectionPoint isServer = Some v2 /\
    Config.entryPoints v2
      = Some (Config.injectee isServer :: Config.injectee isServer :: points).
Proof.
  intros Hres Hv Hp.
  pose proof (injectionPoint_not_main_js isServer) as Hne.
  set (v1 := Notions.prependEntry (Config.injectee isServer) v).
  set (once := delete "main.js" (<[Config.injectionPoint isServer := v1]> o)).
  assert (once !! Config.injectionPoint isServer = Some v1) as Hv1.
  { unfold once. rewrite lookup_delete_ne by congruence. apply lookup_insert_eq. }
  pose proof (entryPoints_prependEntry (Config.injectee isServer) v points Hp) as Hp1.
  exists once,
    (delete "main.js"
       (<[Config.injectionPoint isServer :=
            Notions.prependEntry (Config.injectee isServer) v1]> once)),
    (Notions.prependEntry (Config.injectee isServer) v1).
  split; [exact (injectSentry_success _ _ _ _ _ Hres Hv Hp)|].
  split; [exact (injectSentry_success (Config.EPObject once) isServer once v1 _
                   (or_introl eq_refl) Hv1 Hp1)|].
  split.
  - rewrite lookup_delete_ne by congruence. apply lookup_insert_eq.
  - apply entryPoints_prependEntry, Hp1.
Qed.

(** X21: how the injection fails: a rejection of the entry function is passed
    on after the first console line; an entry object without a value at the
    injection point, or with a value there that is not a string, an array,
    or an object whose [import] is a string, an array or another iterable,
    gives a TypeError; and so does a promise given as entry property. *)
Theorem injectSentry_rejections (isServer : bool) :
  let key := if isServer then "pages/_document" else "main" in
  (forall f e,
     f () = Throw e ->
     Config.injectSentry (Config.EPFunction f) isServer
     = ([Config.LogEntryProperty (Config.EPFunction f)], Throw e)) /\
  (forall origEntryProperty (o : gmap string Config.EntryValue),
     Notions.resolvesTo origEntryProperty o ->
     o !! key ≫= Notions.importedEntries = None ->
     exists message,
       snd (Config.injectSentry origEntryProperty isServer) = Throw (TypeError message)) /\
  (forall settled,
     exists message,
       snd (Config.injectSentry (Config.EPPromise settled) isServer)
       = Throw (TypeError message)).
Proof.
  intros key. change key with (Config.injectionPoint isServer). clear key.
  split; [|split].
  - intros f e Hf. unfold Config.injectSentry. rewrite Hf. reflexivity.
  - intros origEntryProperty o Hres Hnone. unfold Config.injectSentry.
    assert (match origEntryProperty with
            | Config.EPObject o0 => Return o0
            | Config.EPFunction f => f ()
            | Config.EPPromise _ => Return ∅
            end = (Return o : Completion JSError _)) as ->.
    { destruct Hres as [-> | (f & -> & Hf)]; [reflexivity | exact Hf]. }
    destruct (o !! Config.injectionPoint isServer) as [[s|l|obj]|]; cbn in Hnone;
      try discriminate.
    + destruct (obj !! "import") as [[s|l|d l|d]|]; try discriminate; eexists; reflexivity.
    + eexists. reflexivity.
  - intros settled. unfold Config.injectSentry. rewrite lookup_empty.
    eexists. reflexivity.
Qed.

End InjectSentryFurtherFacts.


Lemma injectSentry_twice_witness :
  exists once twice v2,
    snd (Config.injectSentry (Config.EPObject Sample.serverEntry) true) = Return once /\
    snd (Config.injectSentry (Config.EPObject once) true) = Return twice /\
    twice !! "pages/_document" = Some v2 /\
    Config.entryPoints v2
      = Some [ "./sentry.server.config.js"; "./sentry.server.config.js";
               "next/dist/pages/_document" ].
Proof.
  apply (injectSentry_twice (Config.EPObject Sample.serverEntry) true Sample.serverEntry
           (Config.EArray ["next/dist/pages/_document"]) ["next/dist/pages/_document"]).
  - left. reflexivity.
  - reflexivity.
  - reflexivity.
Defined.

(** ** The exported webpack function and the wrapped configuration *)

Section WebpackExportFacts.

#[local] Open Scope list_scope.

Context (getSentryRelease : option string) (env : gmap string string).
Implicit Types (providedExports : Config.NextConfigExports).
Implicit Types (providedWebpackPluginOptions : gmap string Config.OptionValue).

(** What [newWebpackExport] returns once the provided [webpack] function,
    if there is one, has returned. *)
Lemma newWebpackExport_result providedExports providedWebpackPluginOptions
    config options newConfig :
  Notions.providedConfig providedExports config options = Return newConfig ->
  snd (Config.newWebpackExport getSentryRelease env providedExports
         providedWebpackPluginOptions config options)
  = Return
      {| Config.devtool :=
           if Config.dev options then Config.devtool newConfig else "source-map";
         Config.plugins :=
           Config.plugins newConfig ++
           [ Config.SentryWebpackPlugin
               (providedWebpackPluginOptions
                ∪ list_to_map (Config.defaultWebpackPluginOptions getSentryRelease env)
                ∪ {["dryRun" := Config.OBool (Config.dev options)]}) ];
         Config.entry :=
           Config.EPPromise
             (snd (Config.injectSentry (Config.entry newConfig) (Config.isServer options))) |}.
Proof.
  unfold Notions.providedConfig, Config.newWebpackExport.
  destruct (Config.webpack providedExports) as [f|].
  - destruct (f config options) as [console1 provided]. cbn. intros ->.
    destruct (Config.injectSentry _ _) as [console2 settled]. reflexivity.
  - intros [= <-].
    destruct (Config.injectSentry _ _) as [console2 settled]. reflexivity.
Qed.

(** X22: the exported webpack function fails only where the provided one
    does, with the same exception; a failed injection does not make it
    fail, it is kept in the promise stored under [entry]. *)
Theorem newWebpackExport_fails_with_provided_only providedExports
    providedWebpackPluginOptions config options :
  (forall e,
     snd (Config.newWebpackExport getSentryRelease env providedExports
            providedWebpackPluginOptions config options) = Throw e <->
     Notions.providedConfig providedExports config options = Throw e) /\
  (forall newConfig,
     Notions.providedConfig providedExports config options = Return newConfig ->
     exists result,
       snd (Config.newWebpackExport getSentryRelease env providedExports
              providedWebpackPluginOptions config options) = Return result /\
       Config.entry result
       = Config.EPPromise
           (snd (Config.injectSentry (Config.entry newConfig) (Config.isServer options)))).
Proof.
  split.
  - intros e.
    destruct (Notions.providedConfig providedExports config options) as [newConfig|e'] eqn:Hp.
    + rewrite (newWebpackExport_result _ _ _ _ _ Hp). split; discriminate.
    + unfold Notions.providedConfig in Hp. unfold Config.newWebpackExport.
      destruct (Config.webpack providedExports) as [f|]; [|discriminate].
      destruct (f config options) as [console1 provided]. cbn in Hp. subst provided.
      reflexivity.
  - intros newConfig Hp. eexists. split; [exact (newWebpackExport_result _ _ _ _ _ Hp)|].
    reflexivity.
Qed.

(** X23: outside development the devtool of the result is ['source-map'],
    whatever the provided function chose; in development its choice is
    kept.  The plugins of the provided configuration are kept in order,
    followed by one instance of SentryWebpackPlugin. *)
Theorem newWebpackExport_devtool_and_plugins providedExports providedWebpackPluginOptions
    config options newConfig :
  Notions.providedConfig providedExports config options = Return newConfig ->
  exists result pluginOptions,
    snd (Config.newWebpackExport getSentryRelease env providedExports
           providedWebpackPluginOptions config options) = Return result /\
    (Config.dev options = false -> Config.devtool result = "source-map") /\
    (Config.dev options = true -> Config.devtool result = Config.devtool newConfig) /\
    Config.plugins result
      = Config.plugins newConfig ++ [Config.SentryWebpackPlugin pluginOptions].
Proof.
  intros Hp. eexists _, _.
  split; [exact (newWebpackExport_result _ _ _ _ _ Hp)|]. cbn.
  split; [intros ->; reflexivity|]. split; [intros ->; reflexivity|]. reflexivity.
Qed.

(** X24: the options of the plugin: a provided option always wins; a key
    that is not provided has the default of the file, that is [release]
    from [getSentryRelease()], [url], [org], [project] and [authToken] from
    the environment, [configFile] ['sentry.properties'], [stripPrefix]
    ['webpack://_N_E/'], [urlPrefix] ['~/_next'], [include] ['.next/'],
    [ignore] ['node_modules'] and ['webpack.config.js'], and [dryRun] as
    [dev]; no other key is set. *)
Theorem sentry_plugin_options providedExports providedWebpackPluginOptions
    config options newConfig :
  let defaults : gmap string Config.OptionValue :=
    {[ "dryRun" := Config.OBool (Config.dev options);
       "release" := Config.ofOptional getSentryRelease;
       "url" := Config.ofOptional (env !! "SENTRY_URL");
       "org" := Config.ofOptional (env !! "SENTRY_ORG");
       "project" := Config.ofOptional (env !! "SENTRY_PROJECT");
       "authToken" := Config.ofOptional (env !! "SENTRY_AUTH_TOKEN");
       "configFile" := Config.OString "sentry.properties";
       "stripPrefix" := Config.OStrings ["webpack://_N_E/"];
       "urlPrefix" := Config.OString "~/_next";
       "include" := Config.OString ".next/";
       "ignore" := Config.OStrings ["node_modules"; "webpack.config.js"] ]} in
  Notions.providedConfig providedExports config options = Return newConfig ->
  exists result pluginOptions,
    snd (Config.newWebpackExport getSentryRelease env providedExports
           providedWebpackPluginOptions config options) = Return result /\
    last (Config.plugins result) = Some (Config.SentryWebpackPlugin pluginOptions) /\
    (forall key value,
       providedWebpackPluginOptions !! key = Some value ->
       pluginOptions !! key = Some value) /\
    (forall key,
       providedWebpackPluginOptions !! key = None ->
       pluginOptions !! key = defaults !! key).
Proof.
  intros defaults Hp. eexists _, _.
  split; [exact (newWebpackExport_result _ _ _ _ _ Hp)|]. cbn [Config.plugins].
  split; [apply last_snoc|].
  assert (list_to_map (Config.defaultWebpackPluginOptions getSentryRelease env)
          ∪ {["dryRun" := Config.OBool (Config.dev options)]} = defaults) as Hdefaults.
  { subst defaults. vm_compute. reflexivity. }
  split.
  - intros key value Hkey. rewrite <- (assoc_L (∪)). apply lookup_union_Some_l, Hkey.
  - intros key Hnone. rewrite <- (assoc_L (∪)), Hdefaults, lookup_union, Hnone.
    destruct (defaults !! key); reflexivity.
Qed.

(** X25: the warning does not depend on the arguments: providing options that
    override defaults gives the same text as providing none, a list of
    eleven times [false]. *)
Theorem withSentryConfig_warning_constant
    (providedExports providedExports' : option Config.NextConfigExports)
    (provided provided' : option (gmap string Config.OptionValue)) :
  fst (Config.withSentryConfig getSentryRelease env providedExports provided)
  = fst (Config.withSentryConfig getSentryRelease env providedExports' provided') /\
  fst (Config.withSentryConfig getSentryRelease env providedExports provided)
  = [ Config.overrideWarning (replicate 11 false) ].
Proof.
  unfold Config.withSentryConfig. cbn zeta.
  rewrite !webpackPluginOptionOverrides_constant. split; reflexivity.
Qed.

(** X26: wrapping a configuration twice: the webpack function of the outer
    wrapping runs the inner one first, so two Sentry plugins are appended,
    and it hands the promise that the inner one stored under [entry] to
    [injectSentry], which rejects: the entry of the result is a promise
    rejected with a TypeError. *)
Theorem withSentryConfig_twice (providedExports : option Config.NextConfigExports)
    (provided1 provided2 : option (gmap string Config.OptionValue))
    config options newConfig :
  Notions.providedConfig (default Config.emptyExports providedExports) config options
    = Return newConfig ->
  let inner := snd (Config.withSentryConfig getSentryRelease env providedExports provided1) in
  let outer := snd (Config.withSentryConfig getSentryRelease env (Some inner) provided2) in
  exists webpack result message options1 options2,
    Config.webpack outer = Some webpack /\
    snd (webpack config options) = Return result /\
    Config.entry result = Config.EPPromise (Throw (TypeError message)) /\
    Config.plugins result
      = Config.plugins newConfig ++
        [Config.SentryWebpackPlugin options1; Config.SentryWebpackPlugin options2].
Proof.
  intros Hp inner outer.
  assert (Notions.providedConfig inner config options
          = Return
              {| Config.devtool :=
                   if Config.dev options then Config.devtool newConfig else "source-map";
                 Config.plugins :=
                   Config.plugins newConfig ++
                   [ Config.SentryWebpackPlugin
                       (default ∅ provided1
                        ∪ list_to_map (Config.defaultWebpackPluginOptions getSentryRelease env)
                        ∪ {["dryRun" := Config.OBool (Config.dev options)]}) ];
                 Config.entry :=
                   Config.EPPromise
                     (snd (Config.injectSentry (Config.entry newConfig)
                             (Config.isServer options))) |}) as Hinner.
  { unfold Notions.providedConfig at 1. cbn.
    exact (newWebpackExport_result _ _ _ _ _ Hp). }
  eexists _, _, _, _, _.
  split; [reflexivity|].
  split; [exact (newWebpackExport_result _ _ _ _ _ Hinner)|].
  cbn. split; [reflexivity|].
  rewrite <- app_assoc. reflexivity.
Qed.

End WebpackExportFacts.

Lemma newWebpackExport_devtool_and_plugins_witness :
  exists result pluginOptions,
    snd (Config.newWebpackExport None ∅ Fixture.userExports ∅ Fixture.config
           {| Config.dev := false; Config.isServer := true |}) = Return result /\
    (false = false -> Config.devtool result = "source-map") /\
    (false = true -> Config.devtool result = "cheap-source-map") /\
    Config.plugins result
      = [Config.OtherPlugin "DefinePlugin"; Config.SentryWebpackPlugin pluginOptions].
Proof.
  apply (newWebpackExport_devtool_and_plugins None ∅ Fixture.userExports ∅ Fixture.config
           {| Config.dev := false; Config.isServer := true |}
           {| Config.devtool := "cheap-source-map";
              Config.plugins := [Config.OtherPlugin "DefinePlugin"];
              Config.entry := Config.entry Fixture.config |}).
  reflexivity.
Defined.

Lemma sentry_plugin_options_witness :
  exists result pluginOptions,
    snd (Config.newWebpackExport None ∅ Config.emptyExports
           {[ "include" := Config.OString "dist/" ]} Fixture.config
           {| Config.dev := true; Config.isServer := false |}) = Return result /\
    last (Config.plugins result) = Some (Config.SentryWebpackPlugin pluginOptions) /\
    pluginOptions !! "include" = Some (Config.OString "dist/") /\
    pluginOptions !! "dryRun" = Some (Config.OBool true) /\
    pluginOptions !! "configFile" = Some (Config.OString "sentry.properties") /\
    pluginOptions !! "release" = Some Config.OUndefined /\
    pluginOptions !! "ignore"
      = Some (Config.OStrings ["node_modules"; "webpack.config.js"]) /\
    pluginOptions !! "dryrun" = None.
Proof.
  destruct (sentry_plugin_options None ∅ Config.emptyExports
              {[ "include" := Config.OString "dist/" ]} Fixture.config
              {| Config.dev := true; Config.isServer := false |} Fixture.config eq_refl)
    as (result & pluginOptions & Hresult & Hlast & Hprovided & Hdefault).
  exists result, pluginOptions.
  split; [exact Hresult|]. split; [exact Hlast|].
  split; [apply Hprovided; reflexivity|].
  repeat split; (rewrite Hdefault; [reflexivity | reflexivity]).
Defined.

Lemma withSentryConfig_twice_witness :
  exists webpack result message options1 options2,
    Config.webpack
      (snd (Config.withSentryConfig None ∅
              (Some (snd (Config.withSentryConfig None ∅ (Some Fixture.userExports) None)))
              None)) = Some webpack /\
    snd (webpack Fixture.config {| Config.dev := false; Config.isServer := true |})
      = Return result /\
    Config.entry result = Config.EPPromise (Throw (TypeError message)) /\
    Config.plugins result
      = [ Config.OtherPlugin "DefinePlugin";
          Config.SentryWebpackPlugin options1; Config.SentryWebpackPlugin options2 ].
Proof.
  apply (withSentryConfig_twice None ∅ (Some Fixture.userExports) None None Fixture.config
           {| Config.dev := false; Config.isServer := true |}
           {| Config.devtool := "cheap-source-map";
              Config.plugins := [Config.OtherPlugin "DefinePlugin"];
              Config.entry := Config.entry Fixture.config |}).
  reflexivity.
Defined.

(** ** The https transport: what construction keeps and where sends fail *)

Section TransportFurtherFacts.

Context {TransportOptions API Event Session SentryRequest PromiseResponse ProxyAgent : Type}.
Context (BaseTransport_constructor :
  TransportOptions ->
  Completion JSError (Transport.HTTPSTransport TransportOptions API ProxyAgent)).
Context (_getProxy :
  Transport.HTTPSTransport TransportOptions API ProxyAgent -> string -> option string).
Context (_sendWithModule :
  Transport.HTTPSTransport TransportOptions API ProxyAgent -> Transport.HTTPModule ->
  SentryRequest -> Transport.Payload Event Session -> Completion JSError PromiseResponse).
Context (eventToSentryRequest : Event -> API -> Completion JSError SentryRequest).
Context (sessionToSentryRequest : Session -> API -> Completion JSError SentryRequest).

(** X27: a constructed instance carries the options it was given and the API
    that the superclass constructor set up, and its client is set. *)
Theorem constructor_keeps_options_and_api newHttpsProxyAgent opts t :
  Transport.constructor BaseTransport_constructor _getProxy newHttpsProxyAgent opts
    = Return t ->
  Transport.options t = opts /\
  (exists base,
     BaseTransport_constructor opts = Return base /\
     Transport._api t = Transport._api base) /\
  is_Some (Transport.client t).
Proof.
  intros H.
  pose proof (constructor_cases BaseTransport_constructor _getProxy newHttpsProxyAgent opts)
    as Hc.
  destruct (BaseTransport_constructor opts) as [base|e]; [|congruence].
  assert (exists agent,
            t = Transport.mkTransport opts (Transport._api base) (Some Transport.https)
                  (Some agent)) as [agent ->].
  { destruct (_getProxy (Transport.afterSuper opts base) "https") as [proxy|].
    - destruct (String.eqb proxy "").
      + rewrite Hc in H. injection H as <-. eauto.
      + destruct (newHttpsProxyAgent proxy); [|congruence].
        rewrite Hc in H. injection H as <-. eauto.
    - rewrite Hc in H. injection H as <-. eauto. }
  cbn. split; [reflexivity|]. split; [exists base; auto | eauto].
Qed.

(** X28: without a resolved proxy the https-proxy-agent package plays no part:
    the outcome of the construction is the same whatever creating a proxy
    agent would do. *)
Theorem construction_without_proxy_ignores_proxy_agent
    (newHttpsProxyAgent newHttpsProxyAgent' : string -> Completion JSError ProxyAgent)
    opts :
  (forall base,
     BaseTransport_constructor opts = Return base ->
     truthy (_getProxy (Transport.afterSuper opts base) "https") = false) ->
  Transport.constructor BaseTransport_constructor _getProxy newHttpsProxyAgent opts
  = Transport.constructor BaseTransport_constructor _getProxy newHttpsProxyAgent' opts.
Proof.
  intros Hproxy. unfold Transport.constructor, mbind, completion_mbind, completion_bind.
  destruct (BaseTransport_constructor opts) as [base|e]; [|reflexivity].
  rewrite (Hproxy base eq_refl). reflexivity.
Qed.

(** X29: [sendEvent] throws in three cases only: the module is unset, the
    payload builder throws, or the shared send routine throws on the
    request that was built; the last two with the exception unchanged. *)
Theorem sendEvent_throws_iff this event e :
  Transport.sendEvent _sendWithModule eventToSentryRequest this event = Throw e <->
  (Transport.module this = None /\
   e = SentryError "No module available in HTTPSTransport") \/
  (exists m,
     Transport.module this = Some m /\
     (eventToSentryRequest event (Transport._api this) = Throw e \/
      exists req,
        eventToSentryRequest event (Transport._api this) = Return req /\
        _sendWithModule this m req (Transport.PEvent event) = Throw e)).
Proof.
  unfold Transport.sendEvent, mbind, completion_mbind, completion_bind.
  destruct (Transport.module this) as [m|].
  - destruct (eventToSentryRequest event (Transport._api this)) as [req|e'] eqn:Hreq.
    + split.
      * intros H. right. exists m. split; [reflexivity|]. right. exists req. auto.
      * intros [[? _] | (m' & [= <-] & [? | (req' & [= <-] & H)])];
          [discriminate | discriminate | exact H].
    + split.
      * intros [= <-]. right. exists m. auto.
      * intros [[? _] | (m' & _ & [[= <-] | (req' & ? & _)])];
          [discriminate | reflexivity | discriminate].
  - split.
    + intros [= <-]. left. auto.
    + intros [[_ ->] | (m' & ? & _)]; [reflexivity | discriminate].
Qed.

End TransportFurtherFacts.

Lemma constructor_keeps_options_and_api_witness :
  Transport.options Sample.proxiedTransport = Some Sample.proxy /\
  Transport._api Sample.proxiedTransport = "https://key@sentry.example/1".
Proof.
  destruct (constructor_keeps_options_and_api Sample.baseConstructor Sample.getProxy
              Sample.newProxyAgent (Some Sample.proxy) Sample.proxiedTransport eq_refl)
    as (Hoptions & (base & Hbase & Hapi) & _).
  split; [exact Hoptions|].
  rewrite Hapi. injection Hbase as <-. reflexivity.
Defined.

Lemma construction_without_proxy_ignores_proxy_agent_witness :
  Transport.constructor Sample.baseConstructor Sample.getProxy
    (fun _ => Throw (ThrownValue "Cannot find module 'https-proxy-agent'")) None
  = Return Sample.directTransport.
Proof.
  rewrite (construction_without_proxy_ignores_proxy_agent Sample.baseConstructor
             Sample.getProxy
             (fun _ => Throw (ThrownValue "Cannot find module 'https-proxy-agent'"))
             Sample.newProxyAgent None).
  - reflexivity.
  - intros base [= <-]. reflexivity.
Defined.

(** ** The wrapped request handler and the name of the transaction
    (instrumentServer.ts) *)

Section SuffixReplacement.

Lemma append_empty_r (s : string) : s +:+ "" = s.
Proof. induction s as [|c s IH]; [reflexivity | rewrite append_cons, IH; reflexivity]. Qed.

Lemma length_append (s t : string) :
  String.length (s +:+ t) = String.length s + String.length t.
Proof.
  induction s as [|c s IH]; [reflexivity|].
  rewrite append_cons. cbn. rewrite IH. reflexivity.
Qed.

Lemma substring_none (n : nat) (s : string) : String.substring n 0 s = "".
Proof.
  revert n. induction s as [|c s IH]; intros [|n]; cbn; try reflexivity. apply IH.
Qed.

Lemma substring_left (s t : string) : String.substring 0 (String.length s) (s +:+ t) = s.
Proof.
  induction s as [|c s IH]; [apply (substring_none 0)|].
  rewrite append_cons. cbn. rewrite IH. reflexivity.
Qed.

Lemma prefix_refl (s : string) : String.prefix s s = true.
Proof.
  induction s as [|c s IH]; [reflexivity|].
  cbn. destruct (ascii_dec c c); [exact IH | contradiction].
Qed.

(** A pattern whose first character does not occur before it is found
    where it starts. *)
Lemma index_after_absent (c : ascii) (rest before : string) :
  Notions.absent c before = true ->
  String.index 0 (String c rest) (before +:+ String c rest) = Some (String.length before).
Proof.
  induction before as [|a before IH]; intros Habsent.
  - change ("" +:+ String c rest) with (String c rest).
    cbn [String.index]. rewrite prefix_refl. reflexivity.
  - cbn in Habsent. apply andb_true_iff in Habsent as [Ha Hrest].
    apply negb_true_iff, Ascii.eqb_neq in Ha.
    rewrite append_cons. cbn [String.index String.length].
    assert (String.prefix (String c rest) (String a (before +:+ String c rest)) = false) as ->.
    { cbn. destruct (ascii_dec c a); [congruence | reflexivity]. }
    rewrite (IH Hrest). reflexivity.
Qed.

(** Replacing a pattern at the end of a text whose first character does
    not occur before it. *)
Lemma replace_suffix (c : ascii) (rest before repl : string) :
  Notions.absent c before = true ->
  Notions.dollarFree repl = true ->
  JS.replace (before +:+ String c rest) (String c rest) repl = before +:+ repl.
Proof.
  intros Habsent Hrepl. unfold JS.replace.
  rewrite (index_after_absent c rest before Habsent).
  rewrite expandReplacement_dollarFree by exact Hrepl.
  rewrite substring_left, length_append, Nat.sub_diag, substring_none, append_empty_r.
  reflexivity.
Qed.

End SuffixReplacement.

Section ReqHandlerFacts.

Context {Headers Cookies ServerResponse ParsedUrl Outside Span : Type}.
Context (hasTracingEnabled : Outside -> bool).
Context (startTransaction :
  ReqHandler.TransactionContext -> Outside ->
  Completion JSError (ReqHandler.Transaction Headers Cookies Span) * Outside).
Context (setSpanOnScope : ReqHandler.Transaction Headers Cookies Span -> Outside -> Outside).
Context (setHttpStatus :
  Z -> ReqHandler.Transaction Headers Cookies Span ->
  ReqHandler.Transaction Headers Cookies Span).
Context (finish : ReqHandler.Transaction Headers Cookies Span -> Outside -> Outside).
Context (once :
  string -> ReqHandler.Listener (Instrument.NextRequest Headers Cookies) ->
  ServerResponse -> ServerResponse).
Context (statusCode : ServerResponse -> Z).
Context (toUpperCase : string -> string).
Context (publicRoute : Instrument.Route Headers Cookies).
Context (origReqHandler :
  ReqHandler.ReqHandler Headers Cookies ServerResponse ParsedUrl Outside Span).

#[local] Abbreviation freshResponse req res transaction :=
  (Instrument.mkNextResponse
     (Instrument.mkSentryData transaction None None
        (Instrument.mkRequestData (Instrument.url req) (Instrument.headers req)
           (Instrument.cookies req)))
     (once "finish" (ReqHandler.FinishListener req) (Instrument.response res))).

(** X9: with tracing disabled, or for a request that is not to be traced, no
    transaction is started: the original handler runs on the outside state
    as it is, with the same arguments and a response whose [__sentry__] is
    made anew from the request and holds no transaction.  With tracing
    disabled the public route is not consulted. *)
Theorem untraced_request_passes_through this req res parsedUrl outside :
  hasTracingEnabled outside = false \/
  Instrument._shouldTraceRequest req publicRoute = Return false ->
  ReqHandler.wrappedReqHandler hasTracingEnabled startTransaction setSpanOnScope once
    toUpperCase publicRoute origReqHandler this req res parsedUrl outside
  = origReqHandler this req (freshResponse req res None) parsedUrl outside.
Proof.
  intros H. unfold ReqHandler.wrappedReqHandler.
  destruct (hasTracingEnabled outside); [|reflexivity].
  destruct H as [H|H]; [discriminate|]. rewrite H. reflexivity.
Qed.

(** For a request that is to be traced, a transaction named by the upper
    case method (GET without one) and the url, with op ['http.server'], is
    started, put on the current scope and on the response, and then the
    original handler runs with the same arguments. *)
Theorem traced_request_starts_transaction this req res parsedUrl outside
    transaction outside' :
  hasTracingEnabled outside = true ->
  Instrument._shouldTraceRequest req publicRoute = Return true ->
  startTransaction
    {| ReqHandler.context_name :=
         toUpperCase (ReqHandler.methodOrGet req) +:+ " " +:+ Instrument.url req;
       ReqHandler.context_op := "http.server" |} outside
    = (Return transaction, outside') ->
  ReqHandler.wrappedReqHandler hasTracingEnabled startTransaction setSpanOnScope once
    toUpperCase publicRoute origReqHandler this req res parsedUrl outside
  = origReqHandler this req (freshResponse req res (Some transaction)) parsedUrl
      (setSpanOnScope transaction outside').
Proof.
  intros Henabled Htrace Hstart. unfold ReqHandler.wrappedReqHandler.
  rewrite Henabled, Htrace. unfold ReqHandler.requestContext. rewrite Hstart. reflexivity.
Qed.

(** X10: what the tracing decision or [startTransaction] throws is not caught:
    the wrapped handler rejects with it and the original handler is not
    called, so the request is not handled. *)
Theorem tracing_failure_blocks_request this req res parsedUrl outside e :
  hasTracingEnabled outside = true ->
  (Instrument._shouldTraceRequest req publicRoute = Throw e \/
   Instrument._shouldTraceRequest req publicRoute = Return true /\
   fst (startTransaction (ReqHandler.requestContext toUpperCase req) outside) = Throw e) ->
  fst (ReqHandler.wrappedReqHandler hasTracingEnabled startTransaction setSpanOnScope once
         toUpperCase publicRoute origReqHandler this req res parsedUrl outside) = Throw e /\
  forall otherHandler,
    ReqHandler.wrappedReqHandler hasTracingEnabled startTransaction setSpanOnScope once
      toUpperCase publicRoute otherHandler this req res parsedUrl outside
    = ReqHandler.wrappedReqHandler hasTracingEnabled startTransaction setSpanOnScope once
        toUpperCase publicRoute origReqHandler this req res parsedUrl outside.
Proof.
  intros Henabled H. unfold ReqHandler.wrappedReqHandler. rewrite Henabled.
  destruct H as [H | [Htrace H]].
  - rewrite H. split; [reflexivity | intros; reflexivity].
  - rewrite Htrace.
    destruct (startTransaction (ReqHandler.requestContext toUpperCase req) outside)
      as [[transaction|e'] outside']; cbn in H; [discriminate|].
    injection H as ->. split; [reflexivity | intros; reflexivity].
Qed.


End ReqHandlerFacts.

Section RenderThenFinish.

Context {Headers Cookies ServerResponse Outside Span : Type}.
Context (setHttpStatus :
  Z -> ReqHandler.Transaction Headers Cookies Span ->
  ReqHandler.Transaction Headers Cookies Span).
Context (finish : ReqHandler.Transaction Headers Cookies Span -> Outside -> Outside).
Context (statusCode : ServerResponse -> Z).
Context (origRender :
  Instrument.Renderer Headers Cookies (ReqHandler.Transaction Headers Cookies Span)
    ServerResponse).

(** X6: wrapping a renderer any number of times is wrapping it once. *)
Theorem wrapped_renderer_repeated (n : nat) this req res pathname options :
  Nat.iter (S n) Instrument.makeWrappedRenderer origRender this req res pathname options
  = Instrument.makeWrappedRenderer origRender this req res pathname options.
Proof.
  revert res. induction n as [|n IH]; intros res; [reflexivity|].
  change (Nat.iter (S (S n)) Instrument.makeWrappedRenderer origRender)
    with (Instrument.makeWrappedRenderer
            (Nat.iter (S n) Instrument.makeWrappedRenderer origRender)).
  unfold Instrument.makeWrappedRenderer at 1. rewrite IH. reflexivity.
Qed.

(** X12: from the renderer to the end of the response: after the wrapped
    renderer has run on a pathname, with an original renderer that leaves
    [__sentry__] alone, finishing a transaction whose name ends with the url
    puts that pathname in place of the url and stores the query as path
    parameters, given that the first character of the url does not occur in
    the name before the url and the pathname holds no dollar sign. *)
Theorem rendered_path_names_transaction this req res pathname options res' rendered
    transaction outside before :
  (forall this req res pathname options,
     Instrument.__sentry__ (fst (origRender this req res pathname options))
     = Instrument.__sentry__ res) ->
  Instrument.makeWrappedRenderer origRender this req res pathname options
    = (res', rendered) ->
  ReqHandler.name transaction = before +:+ Instrument.url req ->
  (exists c rest, Instrument.url req = String c rest /\ Notions.absent c before = true) ->
  Notions.dollarFree pathname = true ->
  exists renamed,
    fst (ReqHandler.finishTransaction setHttpStatus finish statusCode req res' transaction
           outside)
      = setHttpStatus (statusCode (Instrument.response res')) renamed /\
    ReqHandler.name renamed = before +:+ pathname /\
    ReqHandler.pathParams <$> ReqHandler.data renamed
      = Some (Some (Instrument.query options)).
Proof.
  intros Hkeeps Hrender Hname (c & rest & Hurl & Habsent) Hpath.
  assert (Instrument.__sentry__ res'
          = Instrument.mkSentryData (Instrument.transaction (Instrument.__sentry__ res))
              (Some pathname) (Some (Instrument.query options))
              (Instrument.request (Instrument.__sentry__ res))) as Hsentry.
  { unfold Instrument.makeWrappedRenderer in Hrender.
    match type of Hrender with
    | origRender ?t ?r ?s ?p ?o = _ => pose proof (Hkeeps t r s p o) as Hk
    end.
    rewrite Hrender in Hk. exact Hk. }
  eexists. split; [reflexivity|]. cbn. rewrite Hsentry. cbn.
  split; [|reflexivity].
  rewrite Hname, Hurl. apply replace_suffix; assumption.
Qed.

End RenderThenFinish.

Lemma untraced_request_passes_through_witness :
  Fixture.wrappedHandler Fixture.throwingRoute (Instrument.server Fixture.nextServer)
    (Fixture.request "/_next/data/build/index.json") Fixture.renderedResponse None []
  = (Return (),
     (Instrument.mkNextResponse
        (Instrument.mkSentryData None None None
           (Instrument.mkRequestData "/_next/data/build/index.json" () ())) (),
      ["handleRequest"])).
Proof.
  unfold Fixture.wrappedHandler.
  rewrite untraced_request_passes_through; [reflexivity|].
  right. reflexivity.
Defined.

Lemma traced_request_starts_transaction_witness :
  Fixture.wrappedHandler Fixture.imagesRoute (Instrument.server Fixture.nextServer)
    (Fixture.request "/users/42") Fixture.blankResponse None []
  = (Return (),
     (Instrument.mkNextResponse
        (Instrument.mkSentryData (Some (ReqHandler.mkTransaction "GET /users/42" None ()))
           None None (Instrument.mkRequestData "/users/42" () ())) (),
      ["startTransaction GET /users/42"; "setSpan GET /users/42"; "handleRequest"])).
Proof.
  unfold Fixture.wrappedHandler.
  rewrite (traced_request_starts_transaction (fun _ : list string => true)
             Fixture.startLogged) with
    (transaction := ReqHandler.mkTransaction "GET /users/42" None ())
    (outside' := ["startTransaction GET /users/42"]); reflexivity.
Defined.

Lemma tracing_failure_blocks_request_witness :
  fst (Fixture.wrappedHandler Fixture.throwingRoute (Instrument.server Fixture.nextServer)
         (Fixture.request "/api/hello") Fixture.blankResponse None [])
  = Throw (ThrownValue "matcher failed").
Proof.
  unfold Fixture.wrappedHandler.
  apply tracing_failure_blocks_request.
  - reflexivity.
  - left. reflexivity.
Defined.


Lemma rendered_path_names_transaction_witness :
  exists renamed : Fixture.SampleTransaction,
    ReqHandler.name renamed = "GET /users/[id]" /\
    ReqHandler.pathParams <$> ReqHandler.data renamed = Some (Some {[ "id" := "42" ]}).
Proof.
  destruct (rendered_path_names_transaction (fun _ t => t)
              (fun (t : Fixture.SampleTransaction) (log : list string) => log)
              (fun _ : unit => 200%Z)
              (fun _ _ res _ _ => (res, Return None))
              (Instrument.server Fixture.nextServer) (Fixture.request "/users/42")
              Fixture.blankResponse "/users/[id]"
              (Instrument.mkRenderOptions {[ "id" := "42" ]})
              _ _ (ReqHandler.mkTransaction "GET /users/42" None ()) [] "GET "
              (fun _ _ _ _ _ => eq_refl) eq_refl eq_refl
              (ex_intro _ "/"%char (ex_intro _ "users/42" (conj eq_refl eq_refl)))
              eq_refl)
    as (renamed & _ & Hname & Hparams).
  exists renamed. split; [exact Hname | exact Hparams].
Defined.

(** A request that no renderer has seen, such as one for an API route,
    ends with a transaction named after [undefined]. *)
Example api_route_transaction_name :
  ReqHandler.name
    (fst (Fixture.finishLogged (Fixture.request "/api/hello") Fixture.apiResponse
            (ReqHandler.mkTransaction "GET /api/hello" None ()) []))
  = "GET undefined".
Proof. reflexivity. Qed.

(** An entry point object whose [import] is a Set is spread like an array. *)
Example injectSentry_iterable_import :
  snd (Config.injectSentry (Config.EPObject Fixture.setEntry) false)
  = Return {[ "main" := Config.EObject
                {[ "import" := Config.PArray
                                 ["./sentry.client.config.js"; "./client/index.js"] ]} ]}.
Proof. vm_compute. reflexivity. Qed.
